(** * dump-stream.py: the XMTP envelope stream dumper

    A shallow embedding of [src/dump-stream.py] and the properties of its
    topic filter, its message transformer and its read loop.

    Python values are the ones [json.loads] produces.  A [str] is a
    [string] (one character per code point), [bytes] is [list byte], an
    [int] is a [Z].  A [dict] keeps its insertion order, so it is an
    association list.  The three library calls of the script
    ([base64.b64decode], [json.loads], [json.dumps]) are the methods of
    the class [Runtime]. *)

From Stdlib Require Import ZArith String Ascii Strings.Byte DecimalString Bool Lia.
From stdpp Require Import base list strings.

Set Warnings "-register-all".
Local Open Scope string_scope.
Local Open Scope list_scope.
Local Open Scope Z_scope.

(** ** Python values *)

Inductive pyval : Type :=
| VNone
| VBool (b : bool)
| VInt (n : Z)
| VFloat (repr : string)   (* a float, named by its [repr()] *)
| VStr (s : string)
| VList (l : list pyval)
| VDict (d : list (string * pyval)).

Abbreviation dict := (list (string * pyval)).
Abbreviation bytes := (list byte).

(** The exceptions the modelled code can raise.  [Dangling] has no Python
    counterpart: it marks a read through an address the store does not
    hold, which no caller in the script produces. *)
Inductive exn : Type := TypeError | AttributeError | Dangling.

Inductive result (A : Type) : Type :=
| Ok (a : A)
| Raise (e : exn).
Arguments Ok {A} a.
Arguments Raise {A} e.

(** [bool(v)] *)
Definition truthy (v : pyval) : bool :=
  match v with
  | VNone => false
  | VBool b => b
  | VInt n => negb (n =? 0)
  | VFloat r => negb (String.eqb r "0.0" || String.eqb r "-0.0")
  | VStr s => negb (String.eqb s "")
  | VList l => match l with [] => false | _ => true end
  | VDict d => match d with [] => false | _ => true end
  end.

Definition str_truthy (s : string) : bool := negb (String.eqb s "").

(** ** Strings and bytes *)

Definition len (s : string) : Z := Z.of_nat (String.length s).
Definition blen (b : bytes) : Z := Z.of_nat (length b).

(** [needle in hay] on two strings *)
Fixpoint str_contains (needle hay : string) : bool :=
  String.prefix needle hay ||
  match hay with
  | EmptyString => false
  | String _ hay' => str_contains needle hay'
  end.

(** [s * n] *)
Definition str_mul (s : string) (n : Z) : string :=
  Nat.iter (Z.to_nat n) (String.append s) "".

(** [s[:n]] for a string and [b[:n]] for bytes; a negative [n] counts from
    the end. *)
Definition stop_index (size n : Z) : nat :=
  Z.to_nat (if n <? 0 then Z.max 0 (size + n) else n).

Fixpoint str_take (n : nat) (s : string) : string :=
  match n, s with
  | S n', String c s' => String c (str_take n' s')
  | _, _ => ""
  end.

Definition str_slice_to (s : string) (n : Z) : string :=
  str_take (stop_index (len s) n) s.

Definition bytes_slice_to (b : bytes) (n : Z) : bytes :=
  take (stop_index (blen b) n) b.

(** [str(n)] *)
Definition str_of_int (n : Z) : string := NilZero.string_of_int (Z.to_int n).

Definition hex_digit (n : N) : ascii :=
  match String.get (N.to_nat n) "0123456789abcdef" with
  | Some c => c
  | None => "0"%char
  end.

(** [b.hex()] *)
Fixpoint hex (b : bytes) : string :=
  match b with
  | [] => ""
  | x :: b' =>
      String (hex_digit (N.div (Byte.to_N x) 16))
        (String (hex_digit (N.modulo (Byte.to_N x) 16)) (hex b'))
  end.

(** ** Dictionaries *)

(** [d.get(k)] as an option, [d[k] = v] and [d.pop(k, None)] on the entries
    of a dictionary. *)
Fixpoint dict_get (d : dict) (k : string) : option pyval :=
  match d with
  | [] => None
  | (k', v) :: d' => if String.eqb k' k then Some v else dict_get d' k
  end.

Fixpoint dict_set (d : dict) (k : string) (v : pyval) : dict :=
  match d with
  | [] => [(k, v)]
  | (k', v') :: d' =>
      if String.eqb k' k then (k', v) :: d' else (k', v') :: dict_set d' k v
  end.

Definition dict_pop (d : dict) (k : string) : dict :=
  filter (fun kv => negb (String.eqb (fst kv) k)) d.

(** ** The topic filter *)

(** [item in container] for a string [item] *)
Definition py_in (item : string) (container : pyval) : result bool :=
  match container with
  | VStr s => Ok (str_contains item s)
  | VList l =>
      Ok (existsb (fun x => match x with
                            | VStr s => String.eqb s item
                            | _ => false
                            end) l)
  | VDict d => Ok (existsb (fun kv => String.eqb (fst kv) item) d)
  | _ => Raise TypeError
  end.

(** [v.startswith(prefix)] *)
Definition py_startswith (v : pyval) (prefix : string) : result bool :=
  match v with
  | VStr s => Ok (String.prefix prefix s)
  | _ => Raise AttributeError
  end.

Definition rbind {A B} (r : result A) (k : A -> result B) : result B :=
  match r with
  | Ok a => k a
  | Raise e => Raise e
  end.

(** [should_emit], lines 99-106.  The topic is what
    [envelope.get("contentTopic")] returned: [VNone] when the key is
    missing, any value otherwise. *)
Definition should_emit (topic : pyval) (contains prefix : string) : result bool :=
  if negb (truthy topic) then
    Ok (if str_truthy contains || str_truthy prefix then false else true)
  else
    rbind (if str_truthy contains
           then rbind (py_in contains topic) (fun r => Ok (negb r))
           else Ok false)
      (fun reject_contains =>
         if reject_contains then Ok false
         else
           rbind (if str_truthy prefix
                  then rbind (py_startswith topic prefix) (fun r => Ok (negb r))
                  else Ok false)
             (fun reject_prefix =>
                if reject_prefix then Ok false else Ok true)).

(** A topic of the declared type [Optional[str]] as a value. *)
Definition topic_value (t : option string) : pyval :=
  match t with
  | Some s => VStr s
  | None => VNone
  end.

(** ** Command line arguments *)

(** The namespace [parse_args] returns, lines 24-87. *)
Record Namespace : Type := {
  env : string;
  base_url : string;
  raw : bool;
  pretty : bool;
  topic_contains : string;
  topic_prefix : string;
  max_messages : Z;
  omit_message : bool;
  message_max : Z;
  decode_message : bool;
  hex_max : Z
}.

(** The defaults of [parse_args]: the namespace of a run without flags. *)
Definition default_args : Namespace := {|
  env := "production";
  base_url := "";
  raw := false;
  pretty := false;
  topic_contains := "";
  topic_prefix := "";
  max_messages := 0;
  omit_message := false;
  message_max := 0;
  decode_message := false;
  hex_max := 256
|}.

(** ** Library calls *)

(** [b64decode s] is [base64.b64decode(s, validate=False)], [None] when it
    raises; [json_loads s] is [json.loads(s)], [None] when it raises
    [json.JSONDecodeError]; [json_dumps v indent] is
    [json.dumps(v, indent=indent, ensure_ascii=True)]. *)
Class Runtime : Type := {
  b64decode : string -> option bytes;
  json_loads : string -> option pyval;
  json_dumps : pyval -> option nat -> string
}.

(** ** The object store *)

(** Objects that are passed by reference live in a store, addressed by
    their position.  Values nested inside an object are kept inline: the
    script never updates them. *)
Abbreviation loc := nat.
Abbreviation heap := (list pyval).

Definition M (A : Type) : Type := heap -> heap * result A.

#[export] Instance M_ret : MRet M := fun A a h => (h, Ok a).
#[export] Instance M_bind : MBind M := fun A B k m h =>
  match m h with
  | (h', Ok a) => k a h'
  | (h', Raise e) => (h', Raise e)
  end.

Definition lift {A} (r : result A) : M A := fun h => (h, r).

Definition load (l : loc) : M pyval := fun h =>
  match h !! l with
  | Some v => (h, Ok v)
  | None => (h, Raise Dangling)
  end.

Definition alloc (v : pyval) : M loc := fun h => (h ++ [v], Ok (length h)).

Definition store (l : loc) (v : pyval) : M unit := fun h => (<[l := v]> h, Ok tt).

(** [obj.get(key)] *)
Definition py_get (obj : loc) (key : string) : M pyval :=
  v ← load obj;
  match v with
  | VDict d => mret (default VNone (dict_get d key))
  | _ => lift (Raise AttributeError)
  end.

(** [dict(obj)]: a new dictionary with the entries of [obj].  Only a
    dictionary reaches this call, [obj.get] has raised on anything else. *)
Definition py_dict (obj : loc) : M loc :=
  v ← load obj;
  match v with
  | VDict d => alloc (VDict d)
  | _ => lift (Raise TypeError)
  end.

(** [obj[key] = v] *)
Definition py_setitem (obj : loc) (key : string) (v : pyval) : M unit :=
  o ← load obj;
  match o with
  | VDict d => store obj (VDict (dict_set d key v))
  | _ => lift (Raise TypeError)
  end.

(** [obj.pop(key, None)] *)
Definition py_pop (obj : loc) (key : string) : M unit :=
  o ← load obj;
  match o with
  | VDict d => store obj (VDict (dict_pop d key))
  | _ => lift (Raise AttributeError)
  end.

Section Program.
Context `{RT : Runtime}.

(** [json.dumps(obj, indent=indent, ensure_ascii=True)] *)
Definition py_dumps (obj : loc) (indent : option nat) : M string :=
  v ← load obj;
  mret (json_dumps v indent).

(** ** The message transformer *)

(** [decode_message_bytes], lines 109-115. *)
Definition decode_message_bytes (message_b64 : string) : option bytes :=
  let padding := str_mul "=" ((4 - (len message_b64 mod 4)) mod 4) in
  b64decode (message_b64 +:+ padding).

(** [format_envelope], lines 118-154. *)
Definition format_envelope (envelope : loc) (args : Namespace) : M (option string) :=
  topic ← py_get envelope "contentTopic";
  emit ← lift (should_emit topic (topic_contains args) (topic_prefix args));
  if negb emit then mret None
  else
    output ← py_dict envelope;
    message_b64 ← py_get output "message";
    match message_b64 with
    | VStr message_b64 =>
        (if decode_message args then
           match decode_message_bytes message_b64 with
           | Some raw =>
               py_setitem output "messageBytesLen" (VInt (blen raw));;
               if (hex_max args =? 0) || (blen raw <=? hex_max args) then
                 py_setitem output "messageBytesHex" (VStr (hex raw))
               else
                 let clipped := bytes_slice_to raw (hex_max args) in
                 py_setitem output "messageBytesHex"
                   (VStr (hex clipped +:+ "...(+"
                            +:+ str_of_int (blen raw - hex_max args)
                            +:+ " bytes)"))
           | None =>
               py_setitem output "messageBytesLen" VNone;;
               py_setitem output "messageBytesHex" VNone
           end
         else mret tt);;
        (if negb (message_max args =? 0) && (message_max args >? 0) then
           if len message_b64 >? message_max args then
             py_setitem output "message"
               (VStr (str_slice_to message_b64 (message_max args) +:+ "..."))
           else mret tt
         else mret tt);;
        (if omit_message args then py_pop output "message" else mret tt)
    | _ =>
        if omit_message args then py_pop output "message" else mret tt
    end;;
    let indent := if pretty args then Some 2%nat else None in
    rendered ← py_dumps output indent;
    mret (Some rendered).

(** ** The read loop *)

(** What the loop has printed so far, and the local [count] of [main]. *)
Record loop_state : Type := {
  stdout : list string;
  stderr : list string;
  count : Z
}.

Definition print (line : string) (st : loop_state) : loop_state :=
  {| stdout := stdout st ++ [line]; stderr := stderr st; count := count st |}.

Definition print_err (line : string) (st : loop_state) : loop_state :=
  {| stdout := stdout st; stderr := stderr st ++ [line]; count := count st |}.

(** How one pass through the loop body ends: at the next line, at [break],
    or with an exception that nothing in [main] catches. *)
Inductive signal : Type := Next | Break | Abort (e : exn).

(** Lines 191-193: the tail of the loop body. *)
Definition count_and_check (args : Namespace) (st : loop_state) : loop_state * signal :=
  let st' := {| stdout := stdout st; stderr := stderr st; count := count st + 1 |} in
  (st', if negb (max_messages args =? 0) && (count st' >=? max_messages args)
        then Break else Next).

(** Lines 177-193: the body of the loop for one line.  The envelope is the
    only object in the store while it is formatted. *)
Definition loop_body (args : Namespace) (line : string) (st : loop_state)
  : loop_state * signal :=
  if raw args then count_and_check args (print line st)
  else
    match json_loads line with
    | None => (print_err line st, Next)
    | Some payload =>
        match payload with
        | VDict d =>
            let envelope := default payload (dict_get d "result") in
            match format_envelope 0%nat args [envelope] with
            | (_, Ok (Some rendered)) => count_and_check args (print rendered st)
            | (_, Ok None) => count_and_check args st
            | (_, Raise e) => (st, Abort e)
            end
        | _ => (st, Abort AttributeError)
        end
    end.

(** How the loop ends. *)
Inductive outcome : Type :=
| StreamEnd
| LimitReached
| Crashed (e : exn).

(** Lines 176-193: the loop over the lines [iter_lines] yields. *)
Fixpoint run_loop (args : Namespace) (lines : list string) (st : loop_state)
  : loop_state * outcome :=
  match lines with
  | [] => (st, StreamEnd)
  | line :: rest =>
      match loop_body args line st with
      | (st', Next) => run_loop args rest st'
      | (st', Break) => (st', LimitReached)
      | (st', Abort e) => (st', Crashed e)
      end
  end.

Definition initial_state : loop_state := {| stdout := []; stderr := []; count := 0 |}.

(** [main], lines 157-198, from [count = 0] on, without the interrupt: what
    was printed and the exit code, or the exception that ends the run. *)
Definition main (args : Namespace) (lines : list string) : loop_state * result Z :=
  match run_loop args lines initial_state with
  | (st, Crashed e) => (st, Raise e)
  | (st, _) => (st, Ok 0)
  end.

End Program.

(** ** What an emitted envelope is

    The vocabulary of the properties below. *)

Section Shape.
Context `{RT : Runtime}.

(** The [indent] of line 153. *)
Definition indent_of (args : Namespace) : option nat :=
  if pretty args then Some 2%nat else None.

(** [emits envelope args h out]: called in store [h], [format_envelope]
    makes the dictionary [out] as a new object and returns its JSON text. *)
Definition emits (envelope : loc) (args : Namespace) (h : heap) (out : dict) : Prop :=
  format_envelope envelope args h
  = (h ++ [VDict out], Ok (Some (json_dumps (VDict out) (indent_of args)))).

(** The topic [format_envelope] hands to the filter. *)
Definition topic_of (d : dict) : pyval := default VNone (dict_get d "contentTopic").

Definition accepted (d : dict) (args : Namespace) : Prop :=
  should_emit (topic_of d) (topic_contains args) (topic_prefix args) = Ok true.

(** The three steps of lines 130-148 as functions on the entries of
    [output]. *)
Definition with_derived (args : Namespace) (m : string) (d : dict) : dict :=
  if decode_message args then
    match decode_message_bytes m with
    | Some raw =>
        dict_set (dict_set d "messageBytesLen" (VInt (blen raw))) "messageBytesHex"
          (VStr (if (hex_max args =? 0) || (blen raw <=? hex_max args)
                 then hex raw
                 else hex (bytes_slice_to raw (hex_max args)) +:+ "...(+"
                        +:+ str_of_int (blen raw - hex_max args) +:+ " bytes)"))
    | None => dict_set (dict_set d "messageBytesLen" VNone) "messageBytesHex" VNone
    end
  else d.

Definition with_truncated (args : Namespace) (m : string) (d : dict) : dict :=
  if negb (message_max args =? 0) && (message_max args >? 0) then
    if len m >? message_max args
    then dict_set d "message" (VStr (str_slice_to m (message_max args) +:+ "..."))
    else d
  else d.

Definition with_omitted (args : Namespace) (d : dict) : dict :=
  if omit_message args then dict_pop d "message" else d.

Definition transformed (args : Namespace) (d : dict) : dict :=
  match default VNone (dict_get d "message") with
  | VStr m => with_omitted args (with_truncated args m (with_derived args m d))
  | _ => with_omitted args d
  end.

End Shape.

(** * Reference library calls

    Executable versions of the three library calls, to run the script on
    concrete lines.  The theorems below hold for every [Runtime]; this one
    instantiates them. *)

(** The value of a character of the base64 alphabet. *)
Definition b64_value (c : ascii) : option N :=
  let n := N_of_ascii c in
  if ((65 <=? n) && (n <=? 90))%N then Some (n - 65)%N
  else if ((97 <=? n) && (n <=? 122))%N then Some (n - 71)%N
  else if ((48 <=? n) && (n <=? 57))%N then Some (n + 4)%N
  else if (n =? 43)%N then Some 62%N
  else if (n =? 47)%N then Some 63%N
  else None.

Definition byte_of_N (n : N) : byte :=
  match Byte.of_N (n mod 256)%N with
  | Some b => b
  | None => "000"%byte
  end.

(** [binascii.a2b_base64] without strict mode: characters outside the
    alphabet are skipped, a complete pad sequence ends the input, and input
    that ends inside a quad is an error.  [quad_pos] is the position in the
    current group of four, [pads] the length of the current run of ['='],
    [leftchar] the bits not yet written. *)
Fixpoint a2b_base64 (s : string) (quad_pos pads : nat) (leftchar : N) : option bytes :=
  match s with
  | EmptyString => if Nat.eqb quad_pos 0 then Some [] else None
  | String c s' =>
      if Ascii.eqb c "="%char then
        if Nat.leb 2 quad_pos then
          if Nat.leb 4 (quad_pos + S pads) then Some []
          else a2b_base64 s' quad_pos (S pads) leftchar
        else a2b_base64 s' quad_pos pads leftchar
      else
        match b64_value c with
        | None => a2b_base64 s' quad_pos pads leftchar
        | Some this_ch =>
            match quad_pos with
            | 0%nat => a2b_base64 s' 1 0 this_ch
            | 1%nat =>
                cons (byte_of_N (N.lor (N.shiftl leftchar 2) (N.shiftr this_ch 4)))
                  <$> a2b_base64 s' 2 0 (N.land this_ch 15)
            | 2%nat =>
                cons (byte_of_N (N.lor (N.shiftl leftchar 4) (N.shiftr this_ch 2)))
                  <$> a2b_base64 s' 3 0 (N.land this_ch 3)
            | _ =>
                cons (byte_of_N (N.lor (N.shiftl leftchar 6) this_ch))
                  <$> a2b_base64 s' 0 0 0%N
            end
        end
  end.

Fixpoint is_ascii (s : string) : bool :=
  match s with
  | EmptyString => true
  | String c s' => (N_of_ascii c <? 128)%N && is_ascii s'
  end.

(** [base64.b64decode(s, validate=False)] on a [str]: text that is not
    ASCII raises, the rest goes to [binascii.a2b_base64]. *)
Definition b64decode_ref (s : string) : option bytes :=
  if is_ascii s then a2b_base64 s 0 0 0%N else None.

Definition dquote : string := String (ascii_of_N 34) "".
Definition backslash : string := String (ascii_of_N 92) "".
Definition newline : string := String (ascii_of_N 10) "".

Definition quoted (s : string) : string := dquote +:+ s +:+ dquote.

Definition hex4 (n : N) : string :=
  String (hex_digit ((n / 4096) mod 16)%N)
    (String (hex_digit ((n / 256) mod 16)%N)
       (String (hex_digit ((n / 16) mod 16)%N)
          (String (hex_digit (n mod 16)%N) ""))).

(** One character of a string under [ensure_ascii=True]. *)
Definition escape_char (c : ascii) : string :=
  let n := N_of_ascii c in
  if (n =? 34)%N then backslash +:+ dquote
  else if (n =? 92)%N then backslash +:+ backslash
  else if (n =? 10)%N then backslash +:+ "n"
  else if (n =? 13)%N then backslash +:+ "r"
  else if (n =? 9)%N then backslash +:+ "t"
  else if (n =? 8)%N then backslash +:+ "b"
  else if (n =? 12)%N then backslash +:+ "f"
  else if ((32 <=? n) && (n <=? 126))%N then String c ""
  else backslash +:+ "u" +:+ hex4 n.

Fixpoint escape (s : string) : string :=
  match s with
  | EmptyString => ""
  | String c s' => escape_char c +:+ escape s'
  end.

Definition encode_str (s : string) : string := quoted (escape s).

(** The text [json.dumps] writes for a float. *)
Definition float_text (repr : string) : string :=
  if String.eqb repr "nan" then "NaN"
  else if String.eqb repr "inf" then "Infinity"
  else if String.eqb repr "-inf" then "-Infinity"
  else repr.

(** A line break followed by the indentation of [level], when there is an
    indent. *)
Definition break_line (indent : option nat) (level : nat) : string :=
  match indent with
  | Some n => newline +:+ str_mul " " (Z.of_nat (n * level))
  | None => ""
  end.

Definition item_separator (indent : option nat) (level : nat) : string :=
  match indent with
  | Some _ => "," +:+ break_line indent level
  | None => ", "
  end.

(** [json.dumps(v, indent=indent, ensure_ascii=True)] at nesting depth
    [level]. *)
Fixpoint dumps_at (indent : option nat) (level : nat) (v : pyval) : string :=
  match v with
  | VNone => "null"
  | VBool true => "true"
  | VBool false => "false"
  | VInt n => str_of_int n
  | VFloat r => float_text r
  | VStr s => encode_str s
  | VList [] => "[]"
  | VList (x :: xs) =>
      "[" +:+ break_line indent (S level) +:+ dumps_at indent (S level) x
        +:+ (fix rest (l : list pyval) : string :=
               match l with
               | [] => ""
               | y :: l' =>
                   item_separator indent (S level)
                     +:+ dumps_at indent (S level) y +:+ rest l'
               end) xs
        +:+ break_line indent level +:+ "]"
  | VDict [] => "{}"
  | VDict ((k, x) :: xs) =>
      "{" +:+ break_line indent (S level)
        +:+ encode_str k +:+ ": " +:+ dumps_at indent (S level) x
        +:+ (fix rest (l : dict) : string :=
               match l with
               | [] => ""
               | (k', y) :: l' =>
                   item_separator indent (S level)
                     +:+ encode_str k' +:+ ": "
                     +:+ dumps_at indent (S level) y +:+ rest l'
               end) xs
        +:+ break_line indent level +:+ "}"
  end.

Definition json_dumps_ref (v : pyval) (indent : option nat) : string :=
  dumps_at indent 0 v.

(** The lines of the sample stream with the value [json.loads] returns for
    each; a line that is not JSON has no entry. *)
Definition sample_envelope : dict :=
  [("contentTopic", VStr "/xmtp/0/foo"); ("message", VStr "aGVsbG8=")].

Definition sample_line : string := json_dumps_ref (VDict [("result", VDict sample_envelope)]) None.

Definition bare_line : string := json_dumps_ref (VDict sample_envelope) None.

Definition sample_lines : list (string * pyval) :=
  [(sample_line, VDict [("result", VDict sample_envelope)]);
   (bare_line, VDict sample_envelope);
   ("[1, 2]", VList [VInt 1; VInt 2])].

Fixpoint assoc (table : list (string * pyval)) (line : string) : option pyval :=
  match table with
  | [] => None
  | (l, v) :: table' => if String.eqb l line then Some v else assoc table' line
  end.

(** [json.loads] on the lines of the sample stream and on ["not json"]. *)
Definition json_loads_ref (line : string) : option pyval := assoc sample_lines line.

Definition reference : Runtime := {|
  b64decode := b64decode_ref;
  json_loads := json_loads_ref;
  json_dumps := json_dumps_ref
|}.

(** A namespace with the given filter, limit and message flags, the other
    arguments at their defaults. *)
Definition flags (contains prefix : string) (limit : Z) (omit : bool)
    (cut : Z) (decode : bool) (hexcut : Z) : Namespace := {|
  env := "production";
  base_url := "";
  raw := false;
  pretty := false;
  topic_contains := contains;
  topic_prefix := prefix;
  max_messages := limit;
  omit_message := omit;
  message_max := cut;
  decode_message := decode;
  hex_max := hexcut
|}.

(** An envelope with one more field than the sample. *)
Definition stamped_envelope : dict :=
  [("contentTopic", VStr "/xmtp/0/foo"); ("message", VStr "aGVsbG8=");
   ("timestampNs", VInt 42)].

(** An envelope whose message decodes to 300 bytes. *)
Definition long_envelope : dict :=
  [("contentTopic", VStr "/xmtp/0/foo"); ("message", VStr (str_mul "AAAA" 100))].

(** An envelope with a message of ten characters. *)
Definition ten_envelope : dict := [("message", VStr "0123456789")].

(** An envelope whose message is not base64. *)
Definition broken_envelope : dict := [("message", VStr "a")].

(** An envelope that already has a field named [messageBytesLen]. *)
Definition clashing_envelope : dict :=
  [("message", VStr "aGk="); ("messageBytesLen", VStr "x")].

(** * The rest of the script *)

(** ** Whitespace *)

(** [c.isspace()] for a character below 256: tab to carriage return, the
    four separators before the space, the space, next-line and the
    no-break space. *)
Definition is_space (c : ascii) : bool :=
  let n := N_of_ascii c in
  (((9 <=? n) && (n <=? 13)) || ((28 <=? n) && (n <=? 32))
   || (n =? 133) || (n =? 160))%N.

(** [s.lstrip()] and [s.rstrip()] for the characters [drop] accepts. *)
Fixpoint lstrip_by (drop : ascii -> bool) (s : string) : string :=
  match s with
  | EmptyString => ""
  | String c s' => if drop c then lstrip_by drop s' else s
  end.

Fixpoint rstrip_by (drop : ascii -> bool) (s : string) : string :=
  match s with
  | EmptyString => ""
  | String c s' =>
      match rstrip_by drop s' with
      | EmptyString => if drop c then "" else String c ""
      | t => String c t
      end
  end.

(** [s.strip()] *)
Definition strip (s : string) : string := rstrip_by is_space (lstrip_by is_space s).

(** [s.rstrip("/")] *)
Definition rstrip_slash (s : string) : string := rstrip_by (Ascii.eqb "/"%char) s.

(** ** Reading lines *)

Section Lines.

(** [raw.decode("utf-8", errors="replace")] *)
Variable utf8_replace : bytes -> string.

(** [iter_lines], lines 90-96, on the chunks the response yields. *)
Fixpoint iter_lines (resp : list bytes) : list string :=
  match resp with
  | [] => []
  | raw :: resp' =>
      match raw with
      | [] => iter_lines resp'
      | _ :: _ =>
          let line := strip (utf8_replace raw) in
          if str_truthy line then line :: iter_lines resp' else iter_lines resp'
      end
  end.

End Lines.

(** ** The endpoint *)

(** [API_URLS], lines 17-21. *)
Definition API_URLS : list (string * string) :=
  [("local", "http://localhost:5555");
   ("dev", "https://dev.xmtp.network");
   ("production", "https://production.xmtp.network")].

(** [table[key]], [None] for a [KeyError]. *)
Fixpoint table_get (table : list (string * string)) (key : string) : option string :=
  match table with
  | [] => None
  | (k, v) :: table' => if String.eqb k key then Some v else table_get table' key
  end.

Definition subscribe_path : string := "/message/v1/subscribe-all".

(** Lines 160-161: the [url] of [main]. *)
Definition subscribe_url (args : Namespace) : option string :=
  let stripped := strip (base_url args) in
  match (if str_truthy stripped then Some stripped
         else table_get API_URLS (env args)) with
  | Some base => Some (rstrip_slash base +:+ subscribe_path)
  | None => None
  end.

(** [args] with another [--base-url]. *)
Definition set_base_url (b : string) (args : Namespace) : Namespace := {|
  env := env args;
  base_url := b;
  raw := raw args;
  pretty := pretty args;
  topic_contains := topic_contains args;
  topic_prefix := topic_prefix args;
  max_messages := max_messages args;
  omit_message := omit_message args;
  message_max := message_max args;
  decode_message := decode_message args;
  hex_max := hex_max args
|}.

(** The characters of a string. *)
Definition chars (s : string) : list ascii := list_ascii_of_string s.

(** The last character of a string. *)
Fixpoint last_char (s : string) : option ascii :=
  match s with
  | EmptyString => None
  | String c EmptyString => Some c
  | String _ s' => last_char s'
  end.

(** The first character of a string. *)
Definition first_char (s : string) : option ascii :=
  match s with
  | EmptyString => None
  | String c _ => Some c
  end.

(** ** Values and lines by kind *)

(** A [bool], an [int] or a [float]: the values that are no container. *)
Definition is_number (v : pyval) : bool :=
  match v with
  | VBool _ | VInt _ | VFloat _ => true
  | _ => false
  end.

Definition is_dict (v : pyval) : bool :=
  match v with
  | VDict _ => true
  | _ => false
  end.

Definition is_str (v : pyval) : bool :=
  match v with
  | VStr _ => true
  | _ => false
  end.

(** Whether [json.loads] accepts the line. *)
Definition parses `{RT : Runtime} (line : string) : bool :=
  match json_loads line with
  | Some _ => true
  | None => false
  end.

(** ** More sample lines *)

(** An envelope whose topic is a number, and a reply whose [result] is
    [null]. *)
Definition numbered_envelope : dict :=
  [("contentTopic", VInt 7); ("message", VStr "aGk=")].

Definition numbered_line : string := json_dumps_ref (VDict numbered_envelope) None.

Definition null_result_line : string := json_dumps_ref (VDict [("result", VNone)]) None.

Definition more_lines : list (string * pyval) :=
  [(numbered_line, VDict numbered_envelope);
   (null_result_line, VDict [("result", VNone)])].

(** The reference library calls, with [json.loads] also on these lines. *)
Definition reference_more : Runtime := {|
  b64decode := b64decode_ref;
  json_loads := assoc (sample_lines ++ more_lines);
  json_dumps := json_dumps_ref
|}.

(** An envelope whose message is a number. *)
Definition odd_message_envelope : dict :=
  [("contentTopic", VStr "/xmtp/0/foo"); ("message", VInt 12)].

(** A raw-mode namespace with the given limit. *)
Definition raw_flags (limit : Z) : Namespace := {|
  env := "production";
  base_url := "";
  raw := true;
  pretty := false;
  topic_contains := "";
  topic_prefix := "";
  max_messages := limit;
  omit_message := false;
  message_max := 0;
  decode_message := false;
  hex_max := 256
|}.

(** * Properties *)

(** ** Strings *)

Lemma str_truthy_false (s : string) : str_truthy s = false <-> s = "".
Proof.
  unfold str_truthy. destruct (String.eqb_spec s ""); simpl; split; congruence.
Qed.

Lemma append_cons (c : ascii) (s t : string) :
  String c s +:+ t = String c (s +:+ t).
Proof. reflexivity. Qed.

Lemma append_nil (t : string) : "" +:+ t = t.
Proof. reflexivity. Qed.

(** [String.prefix] decides "starts with". *)
Lemma prefix_starts (p s : string) :
  String.prefix p s = true <-> exists suf, s = p +:+ suf.
Proof.
  revert s. induction p as [|c p IH]; intros s.
  - split; [intros _; exists s; reflexivity | intros _; destruct s; reflexivity].
  - destruct s as [|c' s]; simpl.
    + split; [discriminate | intros [suf H]; discriminate].
    + destruct (Ascii.ascii_dec c c') as [->|Hne].
      * rewrite IH. split; intros [suf H]; exists suf; [rewrite H; reflexivity|].
        rewrite append_cons in H. congruence.
      * split; [discriminate | intros [suf H]; rewrite append_cons in H; congruence].
Qed.

Lemma str_contains_nil (c : string) :
  str_contains c "" = String.prefix c "" || false.
Proof. reflexivity. Qed.

Lemma str_contains_cons (c : string) (a : ascii) (s : string) :
  str_contains c (String a s) = String.prefix c (String a s) || str_contains c s.
Proof. reflexivity. Qed.

(** [str_contains] decides "occurs as a substring". *)
Lemma str_contains_occurs (c s : string) :
  str_contains c s = true <-> exists pre suf, s = pre +:+ c +:+ suf.
Proof.
  induction s as [|a s IH].
  - rewrite str_contains_nil, orb_false_r, prefix_starts. split.
    + intros [suf H]. exists "", suf. exact H.
    + intros [pre [suf H]]. destruct pre; [|discriminate].
      exists suf. exact H.
  - rewrite str_contains_cons, orb_true_iff, IH, prefix_starts. split.
    + intros [[suf H] | [pre [suf H]]].
      * exists "", suf. exact H.
      * exists (String a pre), suf. rewrite append_cons, H. reflexivity.
    + intros [pre [suf H]]. destruct pre as [|b pre].
      * left. exists suf. exact H.
      * right. exists pre, suf. rewrite append_cons in H. congruence.
Qed.

Lemma str_take_substring (n : nat) (s : string) : str_take n s = substring 0 n s.
Proof.
  revert s. induction n as [|n IH]; intros [|c s]; simpl; try reflexivity.
  rewrite IH. reflexivity.
Qed.

Lemma length_append (s t : string) :
  String.length (s +:+ t) = (String.length s + String.length t)%nat.
Proof. induction s as [|c s IH]; simpl; [reflexivity | rewrite IH; reflexivity]. Qed.

Lemma length_str_take (n : nat) (s : string) :
  (n <= String.length s)%nat -> String.length (str_take n s) = n.
Proof.
  revert s. induction n as [|n IH]; intros [|c s] H; simpl in *; try reflexivity; try lia.
  rewrite IH; [reflexivity | lia].
Qed.

Lemma str_slice_to_nonneg (s : string) (n : Z) :
  0 <= n -> str_slice_to s n = str_take (Z.to_nat n) s.
Proof.
  intros H. unfold str_slice_to, stop_index.
  destruct (Z.ltb_spec n 0); [lia | reflexivity].
Qed.

Lemma bytes_slice_to_nonneg (b : bytes) (n : Z) :
  0 <= n -> bytes_slice_to b n = take (Z.to_nat n) b.
Proof.
  intros H. unfold bytes_slice_to, stop_index.
  destruct (Z.ltb_spec n 0); [lia | reflexivity].
Qed.

Lemma length_str_mul_char (c : ascii) (n : Z) :
  String.length (str_mul (String c "") n) = Z.to_nat n.
Proof.
  unfold str_mul. induction (Z.to_nat n) as [|k IH]; [reflexivity|].
  rewrite Nat.iter_succ, append_cons, append_nil. cbn [String.length].
  rewrite IH. reflexivity.
Qed.

(** ** The topic filter *)

(** On a topic of the declared type the filter never raises, and its
    answer is the conjunction below. *)
Lemma should_emit_typed (T : option string) (C P : string) :
  should_emit (topic_value T) C P =
  Ok (match T with
      | None | Some "" => negb (str_truthy C || str_truthy P)
      | Some t =>
          (negb (str_truthy C) || str_contains C t)
          && (negb (str_truthy P) || String.prefix P t)
      end).
Proof.
  destruct T as [[|a t]|];
    unfold should_emit, topic_value, truthy, py_in, py_startswith, rbind;
    cbn [String.eqb negb].
  - destruct (str_truthy C || str_truthy P); reflexivity.
  - generalize (str_contains C (String a t)) (String.prefix P (String a t)).
    intros b1 b2.
    destruct (str_truthy C), (str_truthy P), b1, b2; reflexivity.
  - destruct (str_truthy C || str_truthy P); reflexivity.
Qed.

(** C1. For a topic [T] that may be absent, a contains-filter [C] and a
    prefix-filter [P], [should_emit] returns, and it returns true exactly
    when ([T] is present or both filters are empty) and ([C] is empty or
    occurs in [T]) and ([P] is empty or [T] starts with [P]); without a
    topic it returns true exactly when both filters are empty. *)
Theorem should_emit_iff (T : option string) (C P : string) :
  (exists b, should_emit (topic_value T) C P = Ok b)
  /\ (should_emit (topic_value T) C P = Ok true <->
      (T <> None \/ (C = "" /\ P = ""))
      /\ (C = "" \/ exists t pre suf, T = Some t /\ t = pre +:+ C +:+ suf)
      /\ (P = "" \/ exists t suf, T = Some t /\ t = P +:+ suf))
  /\ (should_emit (topic_value None) C P = Ok true <-> C = "" /\ P = "").
Proof.
  assert (Hnone : should_emit (topic_value None) C P = Ok true <-> C = "" /\ P = "").
  { rewrite (should_emit_typed None). split.
    - intros H. injection H as H. apply negb_true_iff, orb_false_iff in H.
      destruct H as [HC HP]. split; apply str_truthy_false; assumption.
    - intros [-> ->]. reflexivity. }
  split; [rewrite should_emit_typed; eauto | split; [|exact Hnone]].
  destruct T as [t|].
  - rewrite should_emit_typed.
    assert (Hgen :
      (negb (str_truthy C) || str_contains C t)
      && (negb (str_truthy P) || String.prefix P t) = true <->
      (Some t <> None \/ (C = "" /\ P = ""))
      /\ (C = "" \/ exists t0 pre suf, Some t = Some t0 /\ t0 = pre +:+ C +:+ suf)
      /\ (P = "" \/ exists t0 suf, Some t = Some t0 /\ t0 = P +:+ suf)).
    { rewrite andb_true_iff, !orb_true_iff, !negb_true_iff, !str_truthy_false,
        str_contains_occurs, prefix_starts.
      split.
      - intros [HC HP]. split; [left; discriminate|]. split.
        + destruct HC as [HC | [pre [suf HC]]]; [left; exact HC|].
          right. exists t, pre, suf. split; [reflexivity | exact HC].
        + destruct HP as [HP | [suf HP]]; [left; exact HP|].
          right. exists t, suf. split; [reflexivity | exact HP].
      - intros [_ [HC HP]]. split.
        + destruct HC as [HC | [t0 [pre [suf [Ht HC]]]]]; [left; exact HC|].
          right. injection Ht as <-. exists pre, suf. exact HC.
        + destruct HP as [HP | [t0 [suf [Ht HP]]]]; [left; exact HP|].
          right. injection Ht as <-. exists suf. exact HP. }
    destruct t as [|a t]; [|split; intros H; [injection H as H|f_equal]; apply Hgen; exact H].
    (* the empty topic is falsy: only empty filters pass, and only they
       occur in it *)
    split.
    + intros H. injection H as H. apply negb_true_iff, orb_false_iff in H.
      destruct H as [HC HP]. apply str_truthy_false in HC, HP. subst.
      split; [left; discriminate | split; left; reflexivity].
    + intros [_ [HC HP]].
      assert (C = "") as ->.
      { destruct HC as [HC | [t0 [pre [suf [Ht HC]]]]]; [exact HC|].
        injection Ht as <-. destruct pre; [|discriminate].
        destruct C; [reflexivity | discriminate]. }
      assert (P = "") as ->.
      { destruct HP as [HP | [t0 [suf [Ht HP]]]]; [exact HP|].
        injection Ht as <-. destruct P; [reflexivity | discriminate]. }
      reflexivity.
  - rewrite Hnone. split.
    + intros [-> ->]. split; [right; split; reflexivity | split; left; reflexivity].
    + intros [[H | H] _]; [congruence | exact H].
Qed.

(** ** Dictionaries *)

Lemma dict_get_set_eq (d : dict) (k : string) (v : pyval) :
  dict_get (dict_set d k v) k = Some v.
Proof.
  induction d as [|[k' v'] d IH]; cbn [dict_set dict_get].
  - rewrite String.eqb_refl. reflexivity.
  - destruct (String.eqb k' k) eqn:E; cbn [dict_get]; rewrite E; [reflexivity | exact IH].
Qed.

Lemma dict_get_set_ne (d : dict) (k k' : string) (v : pyval) :
  k <> k' -> dict_get (dict_set d k v) k' = dict_get d k'.
Proof.
  intros Hne. induction d as [|[k0 v0] d IH]; cbn [dict_set dict_get].
  - destruct (String.eqb_spec k k'); [contradiction | reflexivity].
  - destruct (String.eqb_spec k0 k) as [->|H0]; cbn [dict_get].
    + destruct (String.eqb_spec k k'); [contradiction | reflexivity].
    + rewrite IH. reflexivity.
Qed.

Lemma dict_get_pop_eq (d : dict) (k : string) : dict_get (dict_pop d k) k = None.
Proof.
  unfold dict_pop. induction d as [|[k' v'] d IH]; [reflexivity|].
  rewrite filter_cons. cbn [fst].
  destruct (String.eqb k' k) eqn:E; cbn [negb].
  - rewrite decide_False by (intros H; exact H). exact IH.
  - rewrite decide_True by exact I. cbn [dict_get]. rewrite E. exact IH.
Qed.

Lemma dict_get_pop_ne (d : dict) (k k' : string) :
  k <> k' -> dict_get (dict_pop d k) k' = dict_get d k'.
Proof.
  intros Hne. unfold dict_pop. induction d as [|[k0 v0] d IH]; [reflexivity|].
  rewrite filter_cons. cbn [fst dict_get].
  destruct (String.eqb_spec k0 k) as [->|H0]; cbn [negb].
  - rewrite decide_False by (intros H; exact H).
    destruct (String.eqb_spec k k'); [contradiction | exact IH].
  - rewrite decide_True by exact I. cbn [dict_get]. rewrite IH. reflexivity.
Qed.

(** ** The object store *)

Lemma lookup_last (h : heap) (v : pyval) : (h ++ [v]) !! length h = Some v.
Proof. apply list_lookup_middle. reflexivity. Qed.

Lemma insert_last (h : heap) (v w : pyval) : <[length h := w]> (h ++ [v]) = h ++ [w].
Proof.
  rewrite insert_app_r_alt by reflexivity. rewrite Nat.sub_diag. reflexivity.
Qed.

Lemma py_get_at (h : heap) (l : loc) (d : dict) (k : string) :
  h !! l = Some (VDict d) ->
  py_get l k h = (h, Ok (default VNone (dict_get d k))).
Proof. intros H. unfold py_get, mbind, M_bind, load. rewrite H. reflexivity. Qed.

Lemma py_dict_at (h : heap) (l : loc) (d : dict) :
  h !! l = Some (VDict d) -> py_dict l h = (h ++ [VDict d], Ok (length h)).
Proof. intros H. unfold py_dict, mbind, M_bind, load. rewrite H. reflexivity. Qed.

Lemma py_setitem_last (h : heap) (d : dict) (k : string) (v : pyval) :
  py_setitem (length h) k v (h ++ [VDict d]) = (h ++ [VDict (dict_set d k v)], Ok tt).
Proof.
  unfold py_setitem, mbind, M_bind, load. rewrite lookup_last.
  unfold store. rewrite insert_last. reflexivity.
Qed.

Lemma py_pop_last (h : heap) (d : dict) (k : string) :
  py_pop (length h) k (h ++ [VDict d]) = (h ++ [VDict (dict_pop d k)], Ok tt).
Proof.
  unfold py_pop, mbind, M_bind, load. rewrite lookup_last.
  unfold store. rewrite insert_last. reflexivity.
Qed.

(** A call that fails on its first read leaves the store as it was. *)
Lemma py_get_not_dict (h : heap) (l : loc) (k : string) :
  (forall d, h !! l <> Some (VDict d)) ->
  exists e, py_get l k h = (h, Raise e).
Proof.
  intros H. unfold py_get, mbind, M_bind, load.
  destruct (h !! l) as [v|] eqn:E; [|eauto].
  destruct v; eauto. exfalso. exact (H _ eq_refl).
Qed.

(** ** The message transformer *)

Section Transformer.
Context `{RT : Runtime}.

Lemma py_dumps_last (h : heap) (v : pyval) (indent : option nat) :
  py_dumps (length h) indent (h ++ [v]) = (h ++ [v], Ok (json_dumps v indent)).
Proof. unfold py_dumps, mbind, M_bind, load. rewrite lookup_last. reflexivity. Qed.

Ltac run_store :=
  unfold mbind, M_bind, mret, M_ret;
  repeat first
    [ rewrite py_setitem_last
    | rewrite py_pop_last
    | rewrite py_dumps_last
    | progress cbv beta iota ].

(** What [format_envelope] does on a dictionary: the filter decides, and an
    accepted envelope is copied, transformed and serialised. *)
Lemma format_envelope_dict (h : heap) (envelope : loc) (d : dict) (args : Namespace) :
  h !! envelope = Some (VDict d) ->
  format_envelope envelope args h =
  match should_emit (topic_of d) (topic_contains args) (topic_prefix args) with
  | Ok true =>
      (h ++ [VDict (transformed args d)],
       Ok (Some (json_dumps (VDict (transformed args d)) (indent_of args))))
  | Ok false => (h, Ok None)
  | Raise e => (h, Raise e)
  end.
Proof.
  intros Hd. unfold format_envelope.
  unfold mbind at 1. unfold M_bind at 1. rewrite (py_get_at _ _ _ _ Hd).
  fold (topic_of d).
  unfold mbind at 1. unfold M_bind at 1. unfold lift at 1.
  destruct (should_emit (topic_of d) (topic_contains args) (topic_prefix args))
    as [[|]|e]; [|reflexivity|reflexivity].
  cbn [negb].
  unfold mbind at 1. unfold M_bind at 1. rewrite (py_dict_at _ _ _ Hd).
  unfold mbind at 1. unfold M_bind at 1.
  rewrite (py_get_at _ _ d "message" (lookup_last h (VDict d))).
  unfold transformed, with_omitted, with_truncated, with_derived, indent_of.
  destruct (default VNone (dict_get d "message")) as [| | | |m| |];
    try (destruct (omit_message args); run_store; reflexivity).
  destruct (decode_message args);
    [destruct (decode_message_bytes m) as [raw|];
       [destruct ((hex_max args =? 0) || (blen raw <=? hex_max args))|]|];
    (destruct (negb (message_max args =? 0) && (message_max args >? 0));
       [destruct (len m >? message_max args)|]);
    destruct (omit_message args); run_store; reflexivity.
Qed.

(** On anything that is not a dictionary the first read raises and the
    store stays as it was. *)
Lemma format_envelope_not_dict (h : heap) (envelope : loc) (args : Namespace) :
  (forall d, h !! envelope <> Some (VDict d)) ->
  exists e, format_envelope envelope args h = (h, Raise e).
Proof.
  intros H. destruct (py_get_not_dict h envelope "contentTopic" H) as [e He].
  exists e. unfold format_envelope. unfold mbind at 1. unfold M_bind at 1.
  rewrite He. reflexivity.
Qed.

End Transformer.

Section Envelope.
Context `{RT : Runtime}.

Lemma accepted_emits (h : heap) (envelope : loc) (d : dict) (args : Namespace) :
  h !! envelope = Some (VDict d) -> accepted d args ->
  emits envelope args h (transformed args d).
Proof.
  intros Hd Hacc. unfold emits. rewrite (format_envelope_dict _ _ _ _ Hd).
  unfold accepted in Hacc. rewrite Hacc. reflexivity.
Qed.

Lemma get_with_omitted_ne (args : Namespace) (d : dict) (k : string) :
  k <> "message" -> dict_get (with_omitted args d) k = dict_get d k.
Proof.
  intros Hk. unfold with_omitted. destruct (omit_message args); [|reflexivity].
  apply dict_get_pop_ne. congruence.
Qed.

Lemma get_with_truncated_ne (args : Namespace) (m : string) (d : dict) (k : string) :
  k <> "message" -> dict_get (with_truncated args m d) k = dict_get d k.
Proof.
  intros Hk. unfold with_truncated.
  destruct (negb (message_max args =? 0) && (message_max args >? 0)); [|reflexivity].
  destruct (len m >? message_max args); [|reflexivity].
  apply dict_get_set_ne. congruence.
Qed.

Lemma get_with_derived_ne (args : Namespace) (m : string) (d : dict) (k : string) :
  k <> "messageBytesLen" -> k <> "messageBytesHex" ->
  dict_get (with_derived args m d) k = dict_get d k.
Proof.
  intros Hl Hh. unfold with_derived. destruct (decode_message args); [|reflexivity].
  destruct (decode_message_bytes m);
    rewrite !dict_get_set_ne by congruence; reflexivity.
Qed.

(** An emitted dictionary is the transformed input, and the filter has
    accepted it. *)
Lemma emits_inv (h : heap) (envelope : loc) (d : dict) (args : Namespace) (out : dict) :
  h !! envelope = Some (VDict d) -> emits envelope args h out ->
  accepted d args /\ out = transformed args d.
Proof.
  intros Hd. unfold emits, accepted. rewrite (format_envelope_dict _ _ _ _ Hd).
  destruct (should_emit (topic_of d) (topic_contains args) (topic_prefix args))
    as [[|]|e]; intros H; try discriminate.
  split; [reflexivity|].
  injection H as H _. apply app_inv_head in H. congruence.
Qed.

Lemma message_is (d : dict) (m : string) :
  dict_get d "message" = Some (VStr m) ->
  default VNone (dict_get d "message") = VStr m.
Proof. intros ->. reflexivity. Qed.

(** C3. With decode-message and omit-message off and message-max 0, an
    envelope the topic filters accept is emitted as it came in: the
    dictionary that is serialised has the entries of the input, in the
    same order. *)
Theorem format_envelope_identity
    (h : heap) (envelope : loc) (d : dict) (args : Namespace) :
  h !! envelope = Some (VDict d) ->
  decode_message args = false ->
  omit_message args = false ->
  message_max args = 0 ->
  accepted d args ->
  format_envelope envelope args h
  = (h ++ [VDict d], Ok (Some (json_dumps (VDict d) (indent_of args)))).
Proof.
  intros Hd Hdec Homit Hmax Hacc.
  pose proof (accepted_emits _ _ _ _ Hd Hacc) as He. unfold emits in He.
  replace (transformed args d) with d in He; [exact He|].
  unfold transformed, with_omitted, with_truncated, with_derived.
  rewrite Hdec, Homit, Hmax.
  destruct (default VNone (dict_get d "message")); reflexivity.
Qed.

(** C4. With decode-message on, an accepted envelope whose message decodes
    to [raw] is emitted with [messageBytesLen] the number of bytes of
    [raw], and with [messageBytesHex] the hex text of [raw] when hex-max is
    0 or [raw] has at most hex-max bytes, and otherwise the hex text of its
    first hex-max bytes, [raw[:hex_max]], followed by ["...(+R bytes)"],
    [R] the length of [raw] minus hex-max.  For a hex-max of 0 or more
    [raw[:hex_max]] is the plain prefix of that many bytes. *)
Theorem derived_length_and_hex
    (h : heap) (envelope : loc) (d : dict) (args : Namespace)
    (m : string) (raw : bytes) :
  h !! envelope = Some (VDict d) ->
  dict_get d "message" = Some (VStr m) ->
  decode_message args = true ->
  decode_message_bytes m = Some raw ->
  accepted d args ->
  exists out,
    emits envelope args h out
    /\ dict_get out "messageBytesLen" = Some (VInt (Z.of_nat (length raw)))
    /\ dict_get out "messageBytesHex" =
       Some (VStr (if (hex_max args =? 0) || (Z.of_nat (length raw) <=? hex_max args)
                   then hex raw
                   else hex (bytes_slice_to raw (hex_max args))
                          +:+ "...(+"
                          +:+ str_of_int (Z.of_nat (length raw) - hex_max args)
                          +:+ " bytes)"))
    /\ (0 <= hex_max args ->
        bytes_slice_to raw (hex_max args) = take (Z.to_nat (hex_max args)) raw).
Proof.
  intros Hd Hm Hdec Hraw Hacc.
  exists (transformed args d). split; [exact (accepted_emits _ _ _ _ Hd Hacc)|].
  unfold transformed. rewrite (message_is _ _ Hm).
  rewrite !get_with_omitted_ne, !get_with_truncated_ne by discriminate.
  unfold with_derived. rewrite Hdec, Hraw. fold (blen raw).
  rewrite dict_get_set_eq, dict_get_set_ne, dict_get_set_eq by discriminate.
  split; [reflexivity|]. split; [reflexivity|]. apply bytes_slice_to_nonneg.
Qed.

(** C5. With decode-message, message-max and omit-message all active, an
    accepted envelope with a string message is emitted without a [message]
    key, and with [messageBytesLen] and [messageBytesHex] computed from the
    original message text [m] of the input, whatever message-max is. *)
Theorem derive_then_truncate_then_omit
    (h : heap) (envelope : loc) (d : dict) (args : Namespace) (m : string) :
  h !! envelope = Some (VDict d) ->
  dict_get d "message" = Some (VStr m) ->
  decode_message args = true ->
  0 < message_max args ->
  omit_message args = true ->
  accepted d args ->
  exists out,
    emits envelope args h out
    /\ dict_get out "message" = None
    /\ dict_get out "messageBytesLen" =
       Some (match decode_message_bytes m with
             | Some raw => VInt (blen raw)
             | None => VNone
             end)
    /\ dict_get out "messageBytesHex" =
       Some (match decode_message_bytes m with
             | Some raw =>
                 VStr (if (hex_max args =? 0) || (blen raw <=? hex_max args)
                       then hex raw
                       else hex (bytes_slice_to raw (hex_max args))
                              +:+ "...(+"
                              +:+ str_of_int (blen raw - hex_max args)
                              +:+ " bytes)")
             | None => VNone
             end).
Proof.
  intros Hd Hm Hdec Hmax Homit Hacc.
  exists (transformed args d). split; [exact (accepted_emits _ _ _ _ Hd Hacc)|].
  unfold transformed. rewrite (message_is _ _ Hm). split.
  - unfold with_omitted. rewrite Homit. apply dict_get_pop_eq.
  - rewrite !get_with_omitted_ne, !get_with_truncated_ne by discriminate.
    unfold with_derived. rewrite Hdec.
    destruct (decode_message_bytes m) as [raw|];
      rewrite dict_get_set_eq, dict_get_set_ne, dict_get_set_eq by discriminate;
      split; reflexivity.
Qed.

(** C6, amended. With message-max [M > 0] and omit-message off, an
    accepted envelope whose message is a string [m] is emitted with the
    message cut to its first [M] characters followed by ["..."], [M + 3]
    characters in all, when [m] is longer than [M], and with [m] itself
    when it is not. *)
Theorem truncated_message
    (h : heap) (envelope : loc) (d : dict) (args : Namespace) (m : string) :
  h !! envelope = Some (VDict d) ->
  dict_get d "message" = Some (VStr m) ->
  0 < message_max args ->
  omit_message args = false ->
  accepted d args ->
  exists out,
    emits envelope args h out
    /\ (message_max args < len m ->
        dict_get out "message"
        = Some (VStr (substring 0 (Z.to_nat (message_max args)) m +:+ "..."))
        /\ len (substring 0 (Z.to_nat (message_max args)) m +:+ "...")
           = message_max args + 3)
    /\ (len m <= message_max args ->
        dict_get out "message" = Some (VStr m)).
Proof.
  intros Hd Hm Hmax Homit Hacc.
  exists (transformed args d). split; [exact (accepted_emits _ _ _ _ Hd Hacc)|].
  unfold transformed. rewrite (message_is _ _ Hm).
  unfold with_omitted. rewrite Homit. unfold with_truncated.
  replace (negb (message_max args =? 0) && (message_max args >? 0)) with true
    by (symmetry; apply andb_true_iff; split;
        [apply negb_true_iff, Z.eqb_neq | apply Z.gtb_lt]; lia).
  split; intros HL.
  - replace (len m >? message_max args) with true by (symmetry; apply Z.gtb_lt; lia).
    rewrite dict_get_set_eq, str_slice_to_nonneg by lia.
    rewrite <- str_take_substring. split; [reflexivity|].
    unfold len in *. rewrite length_append, length_str_take by lia.
    cbn [String.length]. lia.
  - replace (len m >? message_max args) with false
      by (symmetry; rewrite Z.gtb_ltb; apply Z.ltb_ge; lia).
    rewrite get_with_derived_ne by discriminate. exact Hm.
Qed.

(** C9, amended. In an emitted envelope every field of the input keeps its
    value, [contentTopic] too, except [message], and except
    [messageBytesLen] and [messageBytesHex] when decode-message is on and
    the message is a string: then these two hold the derived values. *)
Theorem other_fields_pass_through
    (h : heap) (envelope : loc) (d : dict) (args : Namespace) (out : dict)
    (k : string) :
  h !! envelope = Some (VDict d) ->
  emits envelope args h out ->
  k <> "message" ->
  (decode_message args = true ->
   (exists m, dict_get d "message" = Some (VStr m)) ->
   k <> "messageBytesLen" /\ k <> "messageBytesHex") ->
  dict_get out k = dict_get d k.
Proof.
  intros Hd He Hk Hderived.
  destruct (emits_inv _ _ _ _ _ Hd He) as [_ ->].
  unfold transformed.
  destruct (dict_get d "message") as [[| | | |m| |]|] eqn:Hm;
    cbn [from_option id]; try (apply get_with_omitted_ne; exact Hk).
  rewrite get_with_omitted_ne, get_with_truncated_ne by exact Hk.
  unfold with_derived. destruct (decode_message args); [|reflexivity].
  destruct Hderived as [Hl Hh]; [reflexivity | eauto |].
  destruct (decode_message_bytes m);
    rewrite !dict_get_set_ne by congruence; reflexivity.
Qed.

(** C10. [format_envelope] leaves every object it was given as it was:
    the store it returns starts with the store it was called in, so the
    object at [envelope] has the same entries after the call as before.
    The call only adds its working copy at the end. *)
Theorem format_envelope_preserves_input
    (envelope : loc) (args : Namespace) (h : heap) :
  take (length h) (format_envelope envelope args h).1 = h
  /\ (format_envelope envelope args h).1 !! envelope = h !! envelope.
Proof.
  destruct (h !! envelope) as [v|] eqn:Hv.
  - assert (Hlt : (envelope < length h)%nat) by (eapply lookup_lt_Some; exact Hv).
    assert (Hcases : (exists d, v = VDict d) \/ (forall d, h !! envelope <> Some (VDict d))).
    { destruct v; try (right; intros d0; rewrite Hv; discriminate). left. eauto. }
    destruct Hcases as [[d ->] | Hnot].
    + rewrite (format_envelope_dict _ _ _ _ Hv).
      destruct (should_emit (topic_of d) (topic_contains args) (topic_prefix args))
        as [[|]|e]; cbn [fst].
      * rewrite take_app_length, lookup_app_l by exact Hlt. split; [reflexivity | exact Hv].
      * rewrite firstn_all. split; [reflexivity | exact Hv].
      * rewrite firstn_all. split; [reflexivity | exact Hv].
    + destruct (format_envelope_not_dict h envelope args Hnot) as [e ->].
      cbn [fst]. rewrite firstn_all. split; [reflexivity | exact Hv].
  - destruct (format_envelope_not_dict h envelope args) as [e ->].
    + intros d. rewrite Hv. discriminate.
    + cbn [fst]. rewrite firstn_all. split; [reflexivity | exact Hv].
Qed.

End Envelope.

(** ** The read loop *)

Section Loop.
Context `{RT : Runtime}.

Lemma count_and_check_count (args : Namespace) (st : loop_state) :
  count (count_and_check args st).1 = count st + 1.
Proof. reflexivity. Qed.

Lemma count_and_check_signal (args : Namespace) (st : loop_state) :
  (count_and_check args st).2 = Break <->
  max_messages args <> 0 /\ max_messages args <= count st + 1.
Proof.
  unfold count_and_check. cbn [snd count].
  destruct (Z.eqb_spec (max_messages args) 0) as [E|E]; cbn [negb andb].
  - split; [discriminate | intros [H _]; contradiction].
  - destruct (Z.geb_spec (count st + 1) (max_messages args)) as [Hge|Hlt].
    + split; [intros _; split; [exact E | lia] | reflexivity].
    + split; [discriminate | intros [_ Hle]; lia].
Qed.

Lemma count_and_check_not_abort (args : Namespace) (st : loop_state) (e : exn) :
  (count_and_check args st).2 <> Abort e.
Proof.
  unfold count_and_check. cbn [snd].
  destruct (negb (max_messages args =? 0) && _); discriminate.
Qed.

(** A line that is not JSON goes to the error stream and the loop moves
    on, past the counter. *)
Lemma loop_body_malformed (args : Namespace) (line : string) (st : loop_state) :
  raw args = false -> json_loads line = None ->
  loop_body args line st = (print_err line st, Next).
Proof. intros Hraw Hbad. unfold loop_body. rewrite Hraw, Hbad. reflexivity. Qed.

Lemma loop_body_raw (args : Namespace) (line : string) (st : loop_state) :
  raw args = true ->
  loop_body args line st = count_and_check args (print line st).
Proof. intros Hraw. unfold loop_body. rewrite Hraw. reflexivity. Qed.

(** A line whose envelope is emitted is printed and counted. *)
Lemma loop_body_emits (args : Namespace) (line : string) (st : loop_state)
    (p d out : dict) :
  raw args = false ->
  json_loads line = Some (VDict p) ->
  default (VDict p) (dict_get p "result") = VDict d ->
  emits 0%nat args [VDict d] out ->
  loop_body args line st
  = count_and_check args (print (json_dumps (VDict out) (indent_of args)) st).
Proof.
  intros Hraw Hline Henv Hout. unfold loop_body. rewrite Hraw, Hline, Henv.
  unfold emits in Hout. rewrite Hout. reflexivity.
Qed.

(** The three ways through the loop body: past the counter, through the
    counter, or out with an exception. *)
Lemma loop_body_cases (args : Namespace) (line : string) (st : loop_state) :
  (raw args = false /\ json_loads line = None
   /\ loop_body args line st = (print_err line st, Next))
  \/ ((raw args = true \/ json_loads line <> None)
      /\ exists st0, loop_body args line st = count_and_check args st0
                     /\ count st0 = count st)
  \/ ((raw args = true \/ json_loads line <> None)
      /\ exists e, loop_body args line st = (st, Abort e)).
Proof.
  destruct (raw args) eqn:Hraw.
  - right. left. split; [left; reflexivity|].
    exists (print line st). split; [apply loop_body_raw; exact Hraw | reflexivity].
  - destruct (json_loads line) as [payload|] eqn:Hline.
    + right. unfold loop_body. rewrite Hraw, Hline.
      assert (Hne : false = true \/ Some payload <> None) by (right; discriminate).
      destruct payload; try (right; split; [exact Hne | eexists; reflexivity]).
      destruct (format_envelope 0%nat args [default (VDict d) (dict_get d "result")])
        as [h' [[rendered|]|e]].
      * left. split; [exact Hne|]. exists (print rendered st). split; reflexivity.
      * left. split; [exact Hne|]. exists st. split; reflexivity.
      * right. split; [exact Hne | eauto].
    + left. split; [reflexivity|]. split; [reflexivity|].
      apply loop_body_malformed; assumption.
Qed.

(** While the counter is below a positive limit, the loop ends at the
    limit exactly when the counter has reached it. *)
Lemma run_loop_limit (args : Namespace) (lines : list string) :
  0 < max_messages args ->
  forall st st' o,
    count st < max_messages args ->
    run_loop args lines st = (st', o) ->
    (o = LimitReached -> count st' = max_messages args)
    /\ (o = StreamEnd -> count st' < max_messages args).
Proof.
  intros Hmax. induction lines as [|line rest IH]; intros st st' o Hlt Hrun.
  - injection Hrun as <- <-. split; [discriminate | intros _; exact Hlt].
  - cbn [run_loop] in Hrun.
    destruct (loop_body_cases args line st)
      as [[_ [_ Hb]] | [[_ [st0 [Hb Hc]]] | [_ [e Hb]]]]; rewrite Hb in Hrun.
    + apply (IH (print_err line st) _ _ Hlt Hrun).
    + pose proof (count_and_check_count args st0) as Hcount.
      pose proof (count_and_check_signal args st0) as Hsig.
      pose proof (count_and_check_not_abort args st0) as Hna.
      destruct (count_and_check args st0) as [st1 sig]. cbn [fst snd] in *.
      destruct sig as [| |e].
      * apply (IH st1 _ _); [|exact Hrun].
        destruct (Z.lt_ge_cases (count st1) (max_messages args)) as [H|H]; [exact H|].
        assert (Next = Break) by (apply Hsig; lia). discriminate.
      * injection Hrun as <- <-. split; [|discriminate].
        intros _. destruct Hsig as [Hsig _]. specialize (Hsig eq_refl). lia.
      * exfalso. exact (Hna e eq_refl).
    + injection Hrun as <- <-. split; discriminate.
Qed.

Lemma run_loop_unlimited (args : Namespace) (lines : list string) :
  max_messages args = 0 ->
  forall st, (run_loop args lines st).2 <> LimitReached.
Proof.
  intros Hmax. induction lines as [|line rest IH]; intros st; [discriminate|].
  cbn [run_loop].
  destruct (loop_body_cases args line st)
    as [[_ [_ Hb]] | [[_ [st0 [Hb Hc]]] | [_ [e Hb]]]]; rewrite Hb.
  - apply IH.
  - pose proof (count_and_check_signal args st0) as Hsig.
    destruct (count_and_check args st0) as [st1 sig]. cbn [snd] in Hsig.
    destruct sig as [| |e]; [apply IH | | discriminate].
    destruct Hsig as [Hsig _]. destruct (Hsig eq_refl) as [H _]. contradiction.
  - discriminate.
Qed.

End Loop.

Section LoopClaims.
Context `{RT : Runtime}.

Lemma str_mul_chars (c : ascii) (n : Z) :
  Forall (eq c) (list_ascii_of_string (str_mul (String c "") n)).
Proof.
  unfold str_mul. induction (Z.to_nat n) as [|k IH]; [constructor|].
  rewrite Nat.iter_succ, append_cons, append_nil. cbn [list_ascii_of_string].
  constructor; [reflexivity | exact IH].
Qed.

(** The padding of line 112 brings the text to the next multiple of 4. *)
Lemma padding_next_multiple (m : string) :
  let padding := str_mul "=" ((4 - (len m mod 4)) mod 4) in
  Forall (eq "="%char) (list_ascii_of_string padding)
  /\ (String.length padding < 4)%nat
  /\ (String.length (m +:+ padding) mod 4 = 0)%nat.
Proof.
  intros padding. subst padding. split; [apply str_mul_chars|].
  rewrite length_append, length_str_mul_char. unfold len.
  split; [zify; Z.div_mod_to_equations; lia|].
  apply Nat2Z.inj. rewrite Nat2Z.inj_mod, Nat2Z.inj_add.
  rewrite Z2Nat.id by (apply Z.mod_pos_bound; lia).
  change (Z.of_nat 4) with 4. change (Z.of_nat 0) with 0.
  Z.div_mod_to_equations. lia.
Qed.

Lemma filtered_not_printed (args : Namespace) (line : string) (st : loop_state)
    (p d : dict) :
  raw args = false ->
  json_loads line = Some (VDict p) ->
  default (VDict p) (dict_get p "result") = VDict d ->
  should_emit (topic_of d) (topic_contains args) (topic_prefix args) = Ok false ->
  loop_body args line st = count_and_check args st.
Proof.
  intros Hraw Hline Henv Hrej. unfold loop_body. rewrite Hraw, Hline, Henv.
  rewrite (format_envelope_dict [VDict d] 0%nat d args eq_refl), Hrej. reflexivity.
Qed.

(** C2, amended. The counter goes up by one after every line that gets
    to the end of the loop body: every line printed in raw mode, and every
    line that parses as JSON and whose processing raises no exception, also
    when the topic filter rejects the envelope; among these is every line
    that holds an object envelope whose topic is text or missing.  A line
    that does not parse leaves the counter as it was.  With a limit above
    0 the loop stops at the limit exactly when the counter has reached it,
    and with limit 0 it never stops there. *)
Theorem counter_and_limit (args : Namespace) :
  (forall line st st' sig,
      raw args = true \/ json_loads line <> None ->
      loop_body args line st = (st', sig) ->
      (exists e, sig = Abort e /\ st' = st)
      \/ (count st' = count st + 1
          /\ (sig = Break <-> max_messages args <> 0 /\ max_messages args <= count st')))
  /\ (forall line st p d,
         raw args = false ->
         json_loads line = Some (VDict p) ->
         default (VDict p) (dict_get p "result") = VDict d ->
         should_emit (topic_of d) (topic_contains args) (topic_prefix args) = Ok false ->
         exists st' sig,
           loop_body args line st = (st', sig)
           /\ stdout st' = stdout st /\ count st' = count st + 1)
  /\ (forall line st,
         raw args = false -> json_loads line = None ->
         exists st', loop_body args line st = (st', Next) /\ count st' = count st)
  /\ (forall lines st st' o,
         0 < max_messages args ->
         count st < max_messages args ->
         run_loop args lines st = (st', o) ->
         (o = LimitReached -> count st' = max_messages args)
         /\ (o = StreamEnd -> count st' < max_messages args))
  /\ (max_messages args = 0 ->
      forall lines st, (run_loop args lines st).2 <> LimitReached)
  /\ (raw args = true ->
      forall line st, count (loop_body args line st).1 = count st + 1)
  /\ (forall line st p d T,
         raw args = false ->
         json_loads line = Some (VDict p) ->
         default (VDict p) (dict_get p "result") = VDict d ->
         topic_of d = topic_value T ->
         count (loop_body args line st).1 = count st + 1).
Proof.
  split; [|split; [|split; [|split; [|split; [|split]]]]].
  - intros line st st' sig Hcounted Hbody.
    destruct (loop_body_cases args line st)
      as [[Hraw [Hbad _]] | [[_ [st0 [Hb Hc]]] | [_ [e Hb]]]].
    + destruct Hcounted as [H|H]; congruence.
    + right. rewrite Hb in Hbody.
      pose proof (count_and_check_count args st0) as Hcount.
      pose proof (count_and_check_signal args st0) as Hsig.
      rewrite Hbody in Hcount, Hsig. cbn [fst snd] in Hcount, Hsig.
      split; [lia|]. rewrite Hsig, Hcount. reflexivity.
    + left. rewrite Hb in Hbody. injection Hbody as <- <-. exists e.
      split; reflexivity.
  - intros line st p d Hraw Hline Henv Hrej.
    rewrite (filtered_not_printed _ _ _ _ _ Hraw Hline Henv Hrej).
    eexists _, _. split; [reflexivity|]. split; reflexivity.
  - intros line st Hraw Hbad. exists (print_err line st).
    split; [apply loop_body_malformed; assumption | reflexivity].
  - intros lines st st' o Hmax Hlt Hrun.
    exact (run_loop_limit args lines Hmax st st' o Hlt Hrun).
  - intros Hmax lines st. exact (run_loop_unlimited args lines Hmax st).
  - intros Hraw line st. rewrite (loop_body_raw _ _ _ Hraw). reflexivity.
  - intros line st p d T Hraw Hline Henv Htopic.
    unfold loop_body. rewrite Hraw, Hline, Henv. cbv zeta.
    rewrite (format_envelope_dict [VDict d] 0%nat d args eq_refl).
    rewrite Htopic.
    destruct (should_emit (topic_value T) (topic_contains args) (topic_prefix args))
      as [[|]|e] eqn:E; [reflexivity | reflexivity |].
    rewrite should_emit_typed in E. discriminate.
Qed.

(** C7. Decoding is tolerant: the text handed to the decoder is the
    message followed by fewer than four ['='], as many as bring its length
    to a multiple of 4.  A decode failure is recoverable: the envelope is
    still emitted, with [messageBytesLen] and [messageBytesHex] both
    [None], and the loop prints it, counts it and goes on. *)
Theorem tolerant_decoding :
  (forall m : string,
      exists padding : string,
        decode_message_bytes m = b64decode (m +:+ padding)
        /\ Forall (eq "="%char) (list_ascii_of_string padding)
        /\ (String.length padding < 4)%nat
        /\ (String.length (m +:+ padding) mod 4 = 0)%nat)
  /\ (forall h envelope d args m,
         h !! envelope = Some (VDict d) ->
         dict_get d "message" = Some (VStr m) ->
         decode_message args = true ->
         decode_message_bytes m = None ->
         accepted d args ->
         exists out,
           emits envelope args h out
           /\ dict_get out "messageBytesLen" = Some VNone
           /\ dict_get out "messageBytesHex" = Some VNone)
  /\ (forall args line st p d m,
         raw args = false ->
         json_loads line = Some (VDict p) ->
         default (VDict p) (dict_get p "result") = VDict d ->
         dict_get d "message" = Some (VStr m) ->
         decode_message args = true ->
         decode_message_bytes m = None ->
         accepted d args ->
         exists out,
           loop_body args line st
           = count_and_check args (print (json_dumps (VDict out) (indent_of args)) st)
           /\ dict_get out "messageBytesLen" = Some VNone
           /\ dict_get out "messageBytesHex" = Some VNone).
Proof.
  assert (Hnull : forall d args m,
    dict_get d "message" = Some (VStr m) ->
    decode_message args = true ->
    decode_message_bytes m = None ->
    dict_get (transformed args d) "messageBytesLen" = Some VNone
    /\ dict_get (transformed args d) "messageBytesHex" = Some VNone).
  { intros d args m Hm Hdec Hfail. unfold transformed. rewrite (message_is _ _ Hm).
    rewrite !get_with_omitted_ne, !get_with_truncated_ne by discriminate.
    unfold with_derived. rewrite Hdec, Hfail.
    rewrite dict_get_set_eq, dict_get_set_ne, dict_get_set_eq by discriminate.
    split; reflexivity. }
  split; [|split].
  - intros m. exists (str_mul "=" ((4 - (len m mod 4)) mod 4)).
    split; [reflexivity | apply padding_next_multiple].
  - intros h envelope d args m Hd Hm Hdec Hfail Hacc.
    exists (transformed args d).
    split; [exact (accepted_emits _ _ _ _ Hd Hacc) | exact (Hnull _ _ _ Hm Hdec Hfail)].
  - intros args line st p d m Hraw Hline Henv Hm Hdec Hfail Hacc.
    exists (transformed args d). split; [|exact (Hnull _ _ _ Hm Hdec Hfail)].
    apply (loop_body_emits _ _ _ p d); try assumption.
    apply accepted_emits; [reflexivity | exact Hacc].
Qed.

(** C8. Outside raw mode, a line that does not parse as JSON is written
    to the error stream as it is, nothing is written to standard output
    for it, and the loop goes on with the next line. *)
Theorem malformed_line_skipped
    (args : Namespace) (line : string) (rest : list string) (st : loop_state) :
  raw args = false ->
  json_loads line = None ->
  exists st',
    loop_body args line st = (st', Next)
    /\ stderr st' = stderr st ++ [line]
    /\ stdout st' = stdout st
    /\ run_loop args (line :: rest) st = run_loop args rest st'.
Proof.
  intros Hraw Hbad. exists (print_err line st).
  pose proof (loop_body_malformed args line st Hraw Hbad) as Hb.
  split; [exact Hb|]. split; [reflexivity|]. split; [reflexivity|].
  cbn [run_loop]. rewrite Hb. reflexivity.
Qed.

End LoopClaims.

(** * The script on the sample stream *)

(** The end-to-end runs of the specification. *)
Example end_to_end_sample :
  main (RT:=reference) default_args [sample_line]
  = ({| stdout := [bare_line]; stderr := []; count := 1 |}, Ok 0).
Proof. vm_compute. reflexivity. Qed.

Example end_to_end_prefix_rejects :
  main (RT:=reference) (flags "" "/xmtp/1" 0 false 0 false 256) [sample_line]
  = ({| stdout := []; stderr := []; count := 1 |}, Ok 0).
Proof. vm_compute. reflexivity. Qed.

Example end_to_end_not_an_object :
  main (RT:=reference) default_args ["[1, 2]"; sample_line]
  = ({| stdout := []; stderr := []; count := 0 |}, Raise AttributeError).
Proof. vm_compute. reflexivity. Qed.

(** A negative hex-max is not rejected: the slice then counts from the
    end, and the suffix adds its size to the length. *)
Example negative_hex_max :
  emits (RT:=reference) 0%nat (flags "" "" 0 true 0 true (-1)) [VDict clashing_envelope]
    [("messageBytesLen", VInt 2); ("messageBytesHex", VStr "68...(+3 bytes)")].
Proof. vm_compute. reflexivity. Qed.

Lemma format_envelope_identity_sample :
  format_envelope (RT:=reference) 0%nat default_args [VDict sample_envelope]
  = ([VDict sample_envelope] ++ [VDict sample_envelope], Ok (Some bare_line)).
Proof.
  apply (format_envelope_identity (RT:=reference) [VDict sample_envelope] 0%nat
           sample_envelope default_args); reflexivity.
Defined.

Lemma derived_length_and_hex_sample :
  exists out,
    emits (RT:=reference) 0%nat (flags "" "" 0 false 0 true 256) [VDict long_envelope] out
    /\ dict_get out "messageBytesLen" = Some (VInt 300)
    /\ dict_get out "messageBytesHex"
       = Some (VStr (str_mul "00" 256 +:+ "...(+44 bytes)")).
Proof.
  destruct (derived_length_and_hex (RT:=reference) [VDict long_envelope] 0%nat
              long_envelope (flags "" "" 0 false 0 true 256) (str_mul "AAAA" 100)
              (replicate 300 "000"%byte))
    as [out [He [Hlen [Hhex Hcut]]]];
    [reflexivity | reflexivity | reflexivity | vm_compute; reflexivity
    | vm_compute; reflexivity |].
  exists out. split; [exact He|]. split; [exact Hlen|].
  rewrite Hhex. vm_compute. reflexivity.
Defined.

Lemma derive_then_truncate_then_omit_sample :
  exists out,
    emits (RT:=reference) 0%nat (flags "" "" 0 true 5 true 256) [VDict sample_envelope] out
    /\ dict_get out "message" = None
    /\ dict_get out "messageBytesLen" = Some (VInt 5)
    /\ dict_get out "messageBytesHex" = Some (VStr "68656c6c6f").
Proof.
  apply (derive_then_truncate_then_omit (RT:=reference) [VDict sample_envelope] 0%nat
           sample_envelope (flags "" "" 0 true 5 true 256) "aGVsbG8=");
    [reflexivity | reflexivity | reflexivity | simpl; lia | reflexivity
    | vm_compute; reflexivity].
Defined.

(** C6 as stated fails when omit-message is on: the message of ten
    characters is not cut to eight, it is gone. *)
Lemma truncated_message_omitted :
  len "0123456789" = 10
  /\ exists out,
       emits (RT:=reference) 0%nat (flags "" "" 0 true 5 false 256) [VDict ten_envelope] out
       /\ dict_get out "message" = None
       /\ dict_get out "message" <> Some (VStr "01234...").
Proof.
  split; [reflexivity|]. exists []. split; [vm_compute; reflexivity|].
  split; [reflexivity | discriminate].
Qed.

Lemma truncated_message_sample :
  exists out,
    emits (RT:=reference) 0%nat (flags "" "" 0 false 5 false 256) [VDict ten_envelope] out
    /\ dict_get out "message" = Some (VStr "01234...")
    /\ len "01234..." = 8.
Proof.
  destruct (truncated_message (RT:=reference) [VDict ten_envelope] 0%nat ten_envelope
              (flags "" "" 0 false 5 false 256) "0123456789")
    as [out [He [Hlong _]]];
    [reflexivity | reflexivity | simpl; lia | reflexivity | vm_compute; reflexivity |].
  exists out. split; [exact He|]. apply Hlong. vm_compute. reflexivity.
Defined.

Lemma tolerant_decoding_sample :
  exists out,
    emits (RT:=reference) 0%nat (flags "" "" 0 false 0 true 256) [VDict broken_envelope] out
    /\ dict_get out "messageBytesLen" = Some VNone
    /\ dict_get out "messageBytesHex" = Some VNone.
Proof.
  apply (proj1 (proj2 (tolerant_decoding (RT:=reference))) [VDict broken_envelope] 0%nat
           broken_envelope (flags "" "" 0 false 0 true 256) "a");
    [reflexivity | reflexivity | reflexivity | vm_compute; reflexivity
    | vm_compute; reflexivity].
Defined.

Lemma malformed_line_skipped_sample :
  exists st',
    loop_body (RT:=reference) default_args "not json" initial_state = (st', Next)
    /\ stderr st' = [] ++ ["not json"]
    /\ stdout st' = []
    /\ run_loop (RT:=reference) default_args ["not json"; sample_line] initial_state
       = run_loop (RT:=reference) default_args [sample_line] st'.
Proof.
  apply (malformed_line_skipped (RT:=reference) default_args "not json" [sample_line]
           initial_state); reflexivity.
Defined.

(** C9 as stated fails for a field named like a derived one: with
    decode-message on, the input value of [messageBytesLen] is replaced. *)
Lemma derived_field_overwrites :
  emits (RT:=reference) 0%nat (flags "" "" 0 false 0 true 256) [VDict clashing_envelope]
    [("message", VStr "aGk="); ("messageBytesLen", VInt 2); ("messageBytesHex", VStr "6869")]
  /\ "messageBytesLen" <> "contentTopic"
  /\ "messageBytesLen" <> "message"
  /\ dict_get clashing_envelope "messageBytesLen" = Some (VStr "x")
  /\ dict_get
       [("message", VStr "aGk="); ("messageBytesLen", VInt 2); ("messageBytesHex", VStr "6869")]
       "messageBytesLen" <> dict_get clashing_envelope "messageBytesLen".
Proof.
  split; [vm_compute; reflexivity|].
  split; [discriminate|]. split; [discriminate|]. split; [reflexivity | discriminate].
Qed.

Lemma other_fields_pass_through_sample :
  dict_get
    [("contentTopic", VStr "/xmtp/0/foo"); ("timestampNs", VInt 42);
     ("messageBytesLen", VInt 5); ("messageBytesHex", VStr "68656c6c6f")]
    "timestampNs"
  = dict_get stamped_envelope "timestampNs".
Proof.
  apply (other_fields_pass_through (RT:=reference) [VDict stamped_envelope] 0%nat
           stamped_envelope (flags "" "" 0 true 5 true 256));
    [reflexivity | vm_compute; reflexivity | discriminate
    | intros _ _; split; discriminate].
Defined.

(** C2 as stated fails on a line that is not JSON: it is not counted.
    With a limit of 1, two such lines are both read, the counter stays at
    0 and the loop runs to the end of the stream. *)
Lemma malformed_line_not_counted :
  json_loads (Runtime:=reference) "not json" = None
  /\ count (loop_body (RT:=reference) (flags "" "" 1 false 0 false 256)
              "not json" initial_state).1
     <> count initial_state + 1
  /\ run_loop (RT:=reference) (flags "" "" 1 false 0 false 256)
       ["not json"; "not json"] initial_state
     = ({| stdout := []; stderr := ["not json"; "not json"]; count := 0 |}, StreamEnd).
Proof.
  split; [reflexivity|]. split; [vm_compute; discriminate | vm_compute; reflexivity].
Qed.

Lemma counter_and_limit_sample :
  count (run_loop (RT:=reference) (flags "" "/xmtp/1" 2 false 0 false 256)
           [sample_line; "not json"; bare_line; sample_line] initial_state).1 = 2.
Proof.
  apply (proj1 (proj2 (proj2 (proj2
           (counter_and_limit (RT:=reference) (flags "" "/xmtp/1" 2 false 0 false 256)))))
           [sample_line; "not json"; bare_line; sample_line] initial_state _ LimitReached);
    [simpl; lia | simpl; lia | vm_compute; reflexivity | reflexivity].
Defined.

(** * The rest of the script: properties *)

(** ** Whitespace *)

Lemma rstrip_by_cons (drop : ascii -> bool) (c : ascii) (s : string) :
  rstrip_by drop (String c s) =
  match rstrip_by drop s with
  | EmptyString => if drop c then "" else String c ""
  | t => String c t
  end.
Proof. reflexivity. Qed.

Lemma lstrip_by_nil_iff (drop : ascii -> bool) (s : string) :
  lstrip_by drop s = "" <-> Forall (fun c => drop c = true) (chars s).
Proof.
  induction s as [|c s IH]; cbn [lstrip_by chars list_ascii_of_string].
  - split; [constructor | reflexivity].
  - destruct (drop c) eqn:E.
    + rewrite IH. split; [intros H; constructor; assumption | intros H; inversion H; assumption].
    + split; [discriminate | intros H; inversion H; congruence].
Qed.

Lemma rstrip_by_nil_iff (drop : ascii -> bool) (s : string) :
  rstrip_by drop s = "" <-> Forall (fun c => drop c = true) (chars s).
Proof.
  induction s as [|c s IH]; [split; [constructor | reflexivity]|].
  rewrite rstrip_by_cons. cbn [chars list_ascii_of_string].
  destruct (rstrip_by drop s) as [|c' t].
  - destruct (drop c) eqn:E.
    + split; [intros _; constructor; [exact E | apply IH; reflexivity] | reflexivity].
    + split; [discriminate | intros H; inversion H; congruence].
  - split; [discriminate|]. intros H. inversion H as [|? ? _ Hs]. apply IH in Hs. discriminate.
Qed.

Lemma first_char_lstrip (drop : ascii -> bool) (s : string) (c : ascii) :
  first_char (lstrip_by drop s) = Some c -> drop c = false.
Proof.
  induction s as [|a s IH]; cbn [lstrip_by]; [discriminate|].
  destruct (drop a) eqn:E; [exact IH|]. cbn [first_char]. congruence.
Qed.

Lemma first_char_rstrip (drop : ascii -> bool) (s : string) (c : ascii) :
  first_char (rstrip_by drop s) = Some c -> first_char s = Some c.
Proof.
  destruct s as [|a s]; [discriminate|]. rewrite rstrip_by_cons.
  destruct (rstrip_by drop s); [destruct (drop a)|]; cbn [first_char]; congruence.
Qed.

Lemma last_char_rstrip (drop : ascii -> bool) (s : string) (c : ascii) :
  last_char (rstrip_by drop s) = Some c -> drop c = false.
Proof.
  induction s as [|a s IH]; [discriminate|]. rewrite rstrip_by_cons.
  destruct (rstrip_by drop s) as [|c' t].
  - destruct (drop a) eqn:E; [discriminate|]. cbn [last_char]. congruence.
  - exact IH.
Qed.

Lemma strip_nil_iff (s : string) :
  strip s = "" <-> Forall (fun c => is_space c = true) (chars s).
Proof.
  unfold strip. rewrite <- lstrip_by_nil_iff. split.
  - intros H. destruct (lstrip_by is_space s) as [|c t] eqn:E; [reflexivity|].
    apply rstrip_by_nil_iff in H. inversion H as [|? ? Hc _].
    assert (is_space c = false) by (apply (first_char_lstrip is_space s); rewrite E; reflexivity).
    congruence.
  - intros ->. reflexivity.
Qed.

Lemma str_truthy_true (s : string) : str_truthy s = true <-> s <> "".
Proof.
  unfold str_truthy. destruct (String.eqb_spec s ""); simpl; split; congruence.
Qed.

(** ** Reading lines *)

Section LinesFacts.
Variable utf8_replace : bytes -> string.

(** X1. Every line [iter_lines] yields is not empty and has no whitespace
    at its start or at its end. *)
Theorem iter_lines_stripped (resp : list bytes) :
  Forall (fun line =>
            line <> ""
            /\ (forall c, first_char line = Some c -> is_space c = false)
            /\ (forall c, last_char line = Some c -> is_space c = false))
         (iter_lines utf8_replace resp).
Proof.
  induction resp as [|raw resp IH]; [constructor|].
  cbn [iter_lines]. destruct raw as [|b raw]; [exact IH|]. cbv zeta.
  destruct (str_truthy (strip (utf8_replace (b :: raw)))) eqn:E; [|exact IH].
  constructor; [|exact IH]. split; [|split].
  - intros H. rewrite H in E. discriminate.
  - intros c Hc. unfold strip in Hc.
    apply first_char_rstrip in Hc. exact (first_char_lstrip _ _ _ Hc).
  - intros c Hc. exact (last_char_rstrip _ _ _ Hc).
Qed.

(** X2. The chunks are read one by one and in order, and a chunk yields
    nothing exactly when it is empty or its text is all whitespace;
    any other chunk yields its stripped text. *)
Theorem iter_lines_chunks (resp resp' : list bytes) (raw : bytes) :
  iter_lines utf8_replace (resp ++ resp')
  = iter_lines utf8_replace resp ++ iter_lines utf8_replace resp'
  /\ (iter_lines utf8_replace [raw] = [] <->
      raw = [] \/ Forall (fun c => is_space c = true) (chars (utf8_replace raw)))
  /\ (iter_lines utf8_replace [raw] = []
      \/ iter_lines utf8_replace [raw] = [strip (utf8_replace raw)]).
Proof.
  split; [|split].
  - induction resp as [|r resp IH]; [reflexivity|].
    cbn [iter_lines app]. destruct r as [|b r]; [exact IH|]. cbv zeta.
    destruct (str_truthy (strip (utf8_replace (b :: r)))); [|exact IH].
    rewrite IH. reflexivity.
  - cbn [iter_lines]. destruct raw as [|b raw].
    + split; [left; reflexivity | reflexivity].
    + cbv zeta. rewrite <- strip_nil_iff.
      destruct (str_truthy (strip (utf8_replace (b :: raw)))) eqn:E.
      * apply str_truthy_true in E. split; [discriminate|].
        intros [H|H]; [discriminate | contradiction].
      * apply str_truthy_false in E. split; [right; exact E | reflexivity].
  - cbn [iter_lines]. destruct raw as [|b raw]; [left; reflexivity|]. cbv zeta.
    destruct (str_truthy (strip (utf8_replace (b :: raw)))); [right | left]; reflexivity.
Qed.

End LinesFacts.

(** ** The endpoint *)

Lemma length_lstrip_by (drop : ascii -> bool) (s : string) :
  lstrip_by drop s = s \/ (String.length (lstrip_by drop s) < String.length s)%nat.
Proof.
  induction s as [|c s IH]; [left; reflexivity|]. cbn [lstrip_by].
  destruct (drop c); [|left; reflexivity].
  right. cbn [String.length]. destruct IH as [-> | H]; lia.
Qed.

Lemma length_rstrip_by (drop : ascii -> bool) (s : string) :
  (String.length (rstrip_by drop s) <= String.length s)%nat.
Proof.
  induction s as [|c s IH]; [reflexivity|]. rewrite rstrip_by_cons.
  destruct (rstrip_by drop s) as [|c' t]; [destruct (drop c)|];
    cbn [String.length] in *; lia.
Qed.

Lemma rstrip_by_app_keep (drop : ascii -> bool) (s : string) (c : ascii) :
  drop c = false -> rstrip_by drop (s +:+ String c "") = s +:+ String c "".
Proof.
  intros Hc. induction s as [|a s IH].
  - rewrite append_nil. cbn [rstrip_by]. rewrite Hc. reflexivity.
  - rewrite append_cons, rstrip_by_cons, IH.
    destruct s; [rewrite append_nil | rewrite append_cons]; reflexivity.
Qed.

Lemma rstrip_by_app_drop (drop : ascii -> bool) (s : string) (c : ascii) :
  drop c = true -> rstrip_by drop (s +:+ String c "") = rstrip_by drop s.
Proof.
  intros Hc. induction s as [|a s IH].
  - rewrite append_nil. cbn [rstrip_by]. rewrite Hc. reflexivity.
  - rewrite append_cons, !rstrip_by_cons, IH. reflexivity.
Qed.

Lemma append_last_ne (s : string) (c : ascii) : s +:+ String c "" <> "".
Proof. destruct s; [rewrite append_nil | rewrite append_cons]; discriminate. Qed.

(** A text that [strip] leaves alone starts with a character that is not
    whitespace, unless it is empty. *)
Lemma strip_fixed_lstrip (b : string) : strip b = b -> lstrip_by is_space b = b.
Proof.
  intros H. destruct (length_lstrip_by is_space b) as [E|E]; [exact E|].
  pose proof (length_rstrip_by is_space (lstrip_by is_space b)) as L.
  unfold strip in H. rewrite H in L. lia.
Qed.

(** X3. When [main] gets a URL at all, it is a base that does not end in
    a slash, followed by the subscribe path: the two never meet in a
    double slash. *)
Theorem subscribe_url_shape (args : Namespace) (url : string) :
  subscribe_url args = Some url ->
  exists base, url = base +:+ subscribe_path /\ last_char base <> Some "/"%char.
Proof.
  unfold subscribe_url. cbv zeta.
  destruct (if str_truthy (strip (base_url args)) then Some (strip (base_url args))
            else table_get API_URLS (env args)) as [base|]; [|discriminate].
  intros H. injection H as <-. exists (rstrip_slash base). split; [reflexivity|].
  intros Hlast. apply last_char_rstrip in Hlast. discriminate.
Qed.

(** X4. Without a base URL, or with a blank one, the URL is the entry of
    [API_URLS] for the environment followed by the subscribe path, and
    there is one for each of [local], [dev] and [production]. *)
Theorem subscribe_url_of_env (args : Namespace) :
  strip (base_url args) = "" ->
  (forall u, table_get API_URLS (env args) = Some u ->
             subscribe_url args = Some (u +:+ subscribe_path))
  /\ (env args = "local" \/ env args = "dev" \/ env args = "production" ->
      exists u, table_get API_URLS (env args) = Some u).
Proof.
  intros Hblank. split.
  - intros u Hu. unfold subscribe_url. cbv zeta. rewrite Hblank. cbn [str_truthy String.eqb negb].
    rewrite Hu. f_equal. f_equal.
    unfold API_URLS in Hu. cbn [table_get] in Hu.
    repeat match type of Hu with
           | (if ?b then _ else _) = _ => destruct b
           end; try discriminate; injection Hu as <-; reflexivity.
  - intros [-> | [-> | ->]]; eexists; reflexivity.
Qed.

(** X5. A slash at the end of a base URL makes no difference: for a base
    URL without whitespace around it, not empty, the URL is the same with
    and without it. *)
Theorem subscribe_url_trailing_slash (args : Namespace) (b : string) :
  b <> "" -> strip b = b ->
  subscribe_url (set_base_url (b +:+ "/") args) = subscribe_url (set_base_url b args)
  /\ subscribe_url (set_base_url b args) = Some (rstrip_slash b +:+ subscribe_path).
Proof.
  intros Hne Hfix.
  assert (Hstrip : strip (b +:+ "/") = b +:+ "/").
  { unfold strip. pose proof (strip_fixed_lstrip b Hfix) as Hl.
    destruct b as [|c t]; [contradiction|].
    assert (Hc : is_space c = false)
      by (apply (first_char_lstrip is_space (String c t)); rewrite Hl; reflexivity).
    rewrite append_cons. cbn [lstrip_by]. rewrite Hc. rewrite <- append_cons.
    apply rstrip_by_app_keep. reflexivity. }
  unfold subscribe_url, set_base_url. cbn [base_url env]. cbv zeta.
  rewrite Hstrip, Hfix.
  replace (str_truthy (b +:+ "/")) with true
    by (symmetry; apply str_truthy_true; apply append_last_ne).
  replace (str_truthy b) with true by (symmetry; apply str_truthy_true; exact Hne).
  unfold rstrip_slash. rewrite rstrip_by_app_drop by reflexivity.
  split; reflexivity.
Qed.

(** ** The topic filter on any value *)

(** X6. Without filters every envelope passes, whatever its topic is: a
    string, nothing, or a value of another type. *)
Theorem should_emit_unfiltered (topic : pyval) : should_emit topic "" "" = Ok true.
Proof.
  unfold should_emit. cbn [str_truthy String.eqb negb orb].
  destruct (truthy topic); reflexivity.
Qed.

(** X7. A topic that is falsy (the empty string, 0, false, an empty list
    or dictionary) is treated like a missing one: the envelope passes
    exactly when both filters are empty. *)
Theorem should_emit_falsy (topic : pyval) (C P : string) :
  truthy topic = false ->
  should_emit topic C P = should_emit VNone C P
  /\ (should_emit topic C P = Ok true <-> C = "" /\ P = "").
Proof.
  intros Hf. unfold should_emit. rewrite Hf. cbn [truthy negb].
  split; [reflexivity|]. split.
  - intros H. injection H as H.
    destruct (str_truthy C) eqn:EC; [discriminate|].
    destruct (str_truthy P) eqn:EP; [discriminate|].
    split; apply str_truthy_false; assumption.
  - intros [-> ->]. reflexivity.
Qed.

(** X8. The two filters are combined with "and": a topic of the declared
    type passes both exactly when it passes each of them alone. *)
Theorem should_emit_and (T : option string) (C P : string) :
  should_emit (topic_value T) C P = Ok true <->
  should_emit (topic_value T) C "" = Ok true
  /\ should_emit (topic_value T) "" P = Ok true.
Proof.
  rewrite !should_emit_typed.
  destruct T as [[|a t]|]; cbn [str_truthy String.eqb negb orb andb];
    rewrite ?orb_false_r, ?andb_true_r.
  - destruct (str_truthy C), (str_truthy P); cbn; split;
      try (intros [? ?]); try split; congruence.
  - destruct (negb (str_truthy C) || str_contains C (String a t)),
      (negb (str_truthy P) || String.prefix P (String a t)); cbn; split;
      try (intros [? ?]); try split; congruence.
  - destruct (str_truthy C), (str_truthy P); cbn; split;
      try (intros [? ?]); try split; congruence.
Qed.

(** X9. The filters are written for string topics.  A topic that is a
    non-zero number or [true] makes the contains-filter raise [TypeError];
    a truthy topic that is not a string makes the prefix-filter raise
    [AttributeError] when no contains-filter is set. *)
Theorem should_emit_raises (topic : pyval) (C P : string) :
  truthy topic = true ->
  (is_number topic = true -> C <> "" -> should_emit topic C P = Raise TypeError)
  /\ (is_str topic = false -> C = "" -> P <> "" ->
      should_emit topic C P = Raise AttributeError).
Proof.
  intros Ht. unfold should_emit. rewrite Ht. cbn [negb]. split.
  - intros Hn HC. apply str_truthy_true in HC. rewrite HC.
    destruct topic; try discriminate; reflexivity.
  - intros Hs -> HP. apply str_truthy_true in HP. rewrite HP.
    cbn [str_truthy String.eqb negb rbind].
    destruct topic; try discriminate; reflexivity.
Qed.

(** ** The message transformer, further *)

Lemma append_empty_r (s : string) : s +:+ "" = s.
Proof. induction s as [|c s IH]; [reflexivity|]. rewrite append_cons, IH. reflexivity. Qed.

Lemma dict_set_absent (d : dict) (k : string) (v : pyval) :
  dict_get d k = None -> dict_set d k v = d ++ [(k, v)].
Proof.
  induction d as [|[k' v'] d IH]; cbn [dict_get dict_set app]; [reflexivity|].
  destruct (String.eqb k' k); [discriminate|]. intros H. rewrite (IH H). reflexivity.
Qed.

Lemma dict_pop_absent (d : dict) (k : string) :
  dict_get d k = None -> dict_pop d k = d.
Proof.
  unfold dict_pop. induction d as [|[k' v'] d IH]; [reflexivity|].
  cbn [dict_get]. rewrite filter_cons. cbn [fst].
  destruct (String.eqb k' k); [discriminate|]. cbn [negb]. intros H.
  rewrite decide_True by exact I. rewrite (IH H). reflexivity.
Qed.

Lemma dict_get_app_absent (d : dict) (k k' : string) (v : pyval) :
  dict_get d k' = None -> k <> k' -> dict_get (d ++ [(k, v)]) k' = None.
Proof.
  intros Hd Hne. induction d as [|[k0 v0] d IH]; cbn [app dict_get] in *.
  - destruct (String.eqb_spec k k'); [contradiction | reflexivity].
  - destruct (String.eqb k0 k'); [discriminate | exact (IH Hd)].
Qed.

Lemma dict_get_set_some (d : dict) (k k' : string) (v : pyval) :
  dict_get (dict_set d k v) k' <> None -> k' = k \/ dict_get d k' <> None.
Proof.
  intros H. destruct (String.eqb_spec k k') as [->|Hne]; [left; reflexivity|].
  right. rewrite dict_get_set_ne in H by exact Hne. exact H.
Qed.

Lemma dict_get_pop_some (d : dict) (k k' : string) :
  dict_get (dict_pop d k) k' <> None -> dict_get d k' <> None.
Proof.
  intros H. destruct (String.eqb_spec k k') as [->|Hne].
  - rewrite dict_get_pop_eq in H. contradiction.
  - rewrite dict_get_pop_ne in H by exact Hne. exact H.
Qed.

Section EnvelopeMore.
Context `{RT : Runtime}.

(** X10. When the message is missing or is not a string, nothing is
    decoded and nothing is cut, also with decode-message and message-max
    set: the envelope is emitted as it came in, less the [message] field if
    omit-message is on. *)
Theorem non_text_message_only_omitted
    (h : heap) (envelope : loc) (d : dict) (args : Namespace) :
  h !! envelope = Some (VDict d) ->
  accepted d args ->
  (forall m, dict_get d "message" <> Some (VStr m)) ->
  emits envelope args h (if omit_message args then dict_pop d "message" else d)
  /\ (dict_get d "message" = None -> emits envelope args h d).
Proof.
  intros Hd Hacc Hm.
  assert (Hshape : transformed args d
                   = if omit_message args then dict_pop d "message" else d).
  { unfold transformed, with_omitted.
    destruct (dict_get d "message") as [[| | | |m| |]|]; cbn [from_option id];
      try reflexivity. exfalso. exact (Hm m eq_refl). }
  pose proof (accepted_emits _ _ _ _ Hd Hacc) as He. rewrite Hshape in He.
  split; [exact He|]. intros Hnone.
  destruct (omit_message args); [|exact He].
  rewrite (dict_pop_absent _ _ Hnone) in He. exact He.
Qed.

(** X11. With omit-message on, no emitted envelope has a [message] field,
    whatever the message was: a string, another value, or missing. *)
Theorem omit_message_removes
    (h : heap) (envelope : loc) (d : dict) (args : Namespace) :
  h !! envelope = Some (VDict d) ->
  omit_message args = true ->
  accepted d args ->
  exists out, emits envelope args h out /\ dict_get out "message" = None.
Proof.
  intros Hd Homit Hacc. exists (transformed args d).
  split; [exact (accepted_emits _ _ _ _ Hd Hacc)|].
  unfold transformed, with_omitted. rewrite Homit.
  destruct (default VNone (dict_get d "message")); apply dict_get_pop_eq.
Qed.

(** X12. A message-max of 0 or below cuts nothing: with omit-message
    off, the message of an emitted envelope is the message of the input,
    however long it is. *)
Theorem nonpositive_message_max
    (h : heap) (envelope : loc) (d : dict) (args : Namespace) :
  h !! envelope = Some (VDict d) ->
  message_max args <= 0 ->
  omit_message args = false ->
  accepted d args ->
  exists out,
    emits envelope args h out /\ dict_get out "message" = dict_get d "message".
Proof.
  intros Hd Hmax Homit Hacc. exists (transformed args d).
  split; [exact (accepted_emits _ _ _ _ Hd Hacc)|].
  unfold transformed, with_omitted, with_truncated. rewrite Homit.
  replace (negb (message_max args =? 0) && (message_max args >? 0)) with false.
  - destruct (dict_get d "message") as [[| | | |m| |]|] eqn:Hm; cbn [from_option id];
      try exact Hm.
    rewrite get_with_derived_ne by discriminate. exact Hm.
  - symmetry. apply andb_false_iff.
    destruct (Z.eq_dec (message_max args) 0) as [E|E].
    + left. rewrite E. reflexivity.
    + right. rewrite Z.gtb_ltb. apply Z.ltb_ge. lia.
Qed.

(** X13. The derived fields come last.  When the input has no field named
    [messageBytesLen] or [messageBytesHex], the message decodes, nothing
    is cut and nothing is omitted, the emitted envelope is the input with
    [messageBytesLen] and then [messageBytesHex] added at the end. *)
Theorem derived_fields_appended
    (h : heap) (envelope : loc) (d : dict) (args : Namespace)
    (m : string) (raw : bytes) :
  h !! envelope = Some (VDict d) ->
  accepted d args ->
  dict_get d "message" = Some (VStr m) ->
  decode_message args = true ->
  decode_message_bytes m = Some raw ->
  dict_get d "messageBytesLen" = None ->
  dict_get d "messageBytesHex" = None ->
  omit_message args = false ->
  len m <= message_max args \/ message_max args <= 0 ->
  exists text,
    emits envelope args h
      (d ++ [("messageBytesLen", VInt (blen raw)); ("messageBytesHex", VStr text)]).
Proof.
  intros Hd Hacc Hm Hdec Hraw Hl Hh Homit Hcut.
  pose proof (accepted_emits _ _ _ _ Hd Hacc) as He.
  unfold transformed in He. rewrite (message_is _ _ Hm) in He.
  unfold with_omitted, with_truncated, with_derived in He.
  rewrite Homit, Hdec, Hraw in He.
  assert (Hkeep :
    (if negb (message_max args =? 0) && (message_max args >? 0)
     then len m >? message_max args else false) = false).
  { destruct (negb (message_max args =? 0) && (message_max args >? 0)) eqn:E;
      [|reflexivity].
    apply andb_true_iff in E. destruct E as [_ E]. apply Z.gtb_lt in E.
    rewrite Z.gtb_ltb. apply Z.ltb_ge. lia. }
  destruct (negb (message_max args =? 0) && (message_max args >? 0));
    [rewrite Hkeep in He|];
    rewrite (dict_set_absent d _ _ Hl) in He;
    rewrite dict_set_absent in He by (apply dict_get_app_absent; [exact Hh | discriminate]);
    rewrite <- app_assoc in He; eexists; exact He.
Qed.

(** X14. The transformer adds no field but the two derived ones, and
    removes none but [message]: a key of the emitted envelope is a key of
    the input or one of [messageBytesLen] and [messageBytesHex], and a key
    of the input other than [message] is a key of the emitted envelope. *)
Theorem emitted_keys
    (h : heap) (envelope : loc) (d : dict) (args : Namespace) (out : dict)
    (k : string) :
  h !! envelope = Some (VDict d) ->
  emits envelope args h out ->
  (dict_get out k <> None ->
   dict_get d k <> None \/ k = "messageBytesLen" \/ k = "messageBytesHex")
  /\ (dict_get d k <> None -> k <> "message" -> dict_get out k <> None).
Proof.
  intros Hd He. destruct (emits_inv _ _ _ _ _ Hd He) as [_ ->].
  assert (Hder : forall m,
    (dict_get (with_derived args m d) k <> None ->
     dict_get d k <> None \/ k = "messageBytesLen" \/ k = "messageBytesHex")
    /\ (dict_get d k <> None -> dict_get (with_derived args m d) k <> None)).
  { intros m. unfold with_derived. destruct (decode_message args); [|tauto].
    destruct (decode_message_bytes m); split.
    - intros H. apply dict_get_set_some in H. destruct H as [->|H]; [tauto|].
      apply dict_get_set_some in H. destruct H as [->|H]; tauto.
    - intros H.
      destruct (String.eqb_spec "messageBytesHex" k) as [<-|E1];
        [rewrite dict_get_set_eq; discriminate|].
      rewrite dict_get_set_ne by exact E1.
      destruct (String.eqb_spec "messageBytesLen" k) as [<-|E2];
        [rewrite dict_get_set_eq; discriminate|].
      rewrite dict_get_set_ne by exact E2. exact H.
    - intros H. apply dict_get_set_some in H. destruct H as [->|H]; [tauto|].
      apply dict_get_set_some in H. destruct H as [->|H]; tauto.
    - intros H.
      destruct (String.eqb_spec "messageBytesHex" k) as [<-|E1];
        [rewrite dict_get_set_eq; discriminate|].
      rewrite dict_get_set_ne by exact E1.
      destruct (String.eqb_spec "messageBytesLen" k) as [<-|E2];
        [rewrite dict_get_set_eq; discriminate|].
      rewrite dict_get_set_ne by exact E2. exact H. }
  unfold transformed.
  destruct (dict_get d "message") as [[| | | |m| |]|] eqn:Hm; cbn [from_option id];
    try (split;
         [intros H; left; unfold with_omitted in H;
          destruct (omit_message args); [apply dict_get_pop_some in H|]; exact H
         | intros H Hk; rewrite get_with_omitted_ne by exact Hk; exact H]).
  destruct (Hder m) as [Hin Hout]. split.
  - intros H. unfold with_omitted in H.
    assert (Ht : dict_get (with_truncated args m (with_derived args m d)) k <> None)
      by (destruct (omit_message args); [apply dict_get_pop_some in H|]; exact H).
    unfold with_truncated in Ht.
    destruct (negb (message_max args =? 0) && (message_max args >? 0));
      [destruct (len m >? message_max args)|]; try (apply Hin; exact Ht).
    apply dict_get_set_some in Ht. destruct Ht as [->|Ht]; [|apply Hin; exact Ht].
    left. rewrite Hm. discriminate.
  - intros H Hk. rewrite get_with_omitted_ne, get_with_truncated_ne by exact Hk.
    apply Hout. exact H.
Qed.

(** X15. A message whose length is a multiple of 4 goes to the decoder as
    it is, without padding. *)
Theorem aligned_message_not_padded (m : string) :
  len m mod 4 = 0 -> decode_message_bytes m = b64decode m.
Proof.
  intros H. unfold decode_message_bytes. cbv zeta. rewrite H.
  change (str_mul "=" ((4 - 0) mod 4)) with "". rewrite append_empty_r. reflexivity.
Qed.

End EnvelopeMore.

(** ** The read loop, further *)

Section LoopMore.
Context `{RT : Runtime}.

Lemma format_envelope_value (h : heap) (l : loc) (v : pyval) (args : Namespace) :
  h !! l = Some v -> is_dict v = false ->
  format_envelope l args h = (h, Raise AttributeError).
Proof.
  intros Hv Hnd. unfold format_envelope. unfold mbind at 1. unfold M_bind at 1.
  unfold py_get, mbind, M_bind, load. rewrite Hv.
  destruct v; try discriminate; reflexivity.
Qed.

(** The four ways through the loop body, with what each one prints. *)
Lemma loop_body_shapes (args : Namespace) (line : string) (st : loop_state) :
  (raw args = false /\ parses line = false
   /\ loop_body args line st = (print_err line st, Next))
  \/ ((raw args = true \/ parses line = true)
      /\ exists text, loop_body args line st = count_and_check args (print text st))
  \/ (raw args = false /\ parses line = true
      /\ loop_body args line st = count_and_check args st)
  \/ (raw args = false /\ parses line = true
      /\ exists e, loop_body args line st = (st, Abort e)).
Proof.
  unfold loop_body, parses. destruct (raw args).
  - right. left. split; [left; reflexivity | eexists; reflexivity].
  - destruct (json_loads line) as [payload|]; [|left; repeat split].
    right.
    destruct payload;
      try (right; right; split; [reflexivity | split; [reflexivity | eexists; reflexivity]]).
    destruct (format_envelope 0%nat args [default (VDict d) (dict_get d "result")])
      as [h' [[rendered|]|e]].
    + left. split; [right; reflexivity | eexists; reflexivity].
    + right. left. repeat split.
    + right. right. split; [reflexivity | split; [reflexivity | eexists; reflexivity]].
Qed.

Lemma count_and_check_fst (args : Namespace) (st : loop_state) :
  (count_and_check args st).1
  = {| stdout := stdout st; stderr := stderr st; count := count st + 1 |}.
Proof. reflexivity. Qed.

(** What one pass adds: at most one line on one of the two streams, and
    one to the counter exactly when it does not end in [continue] or in an
    exception. *)
Lemma loop_body_adds (args : Namespace) (line : string) (st : loop_state) :
  exists out err,
    stdout (loop_body args line st).1 = stdout st ++ out
    /\ stderr (loop_body args line st).1 = stderr st ++ err
    /\ 0 <= count (loop_body args line st).1 - count st
    /\ Z.of_nat (length out) <= count (loop_body args line st).1 - count st
    /\ count (loop_body args line st).1 - count st + Z.of_nat (length err) <= 1.
Proof.
  destruct (loop_body_shapes args line st)
    as [[_ [_ ->]] | [[_ [text ->]] | [[_ [_ ->]] | [_ [_ [e ->]]]]]].
  - exists [], [line]. cbn. rewrite app_nil_r. repeat split; lia.
  - exists [text], []. rewrite count_and_check_fst. cbn. rewrite app_nil_r.
    repeat split; lia.
  - exists [], []. rewrite count_and_check_fst. cbn. rewrite !app_nil_r.
    repeat split; lia.
  - exists [], []. cbn. rewrite !app_nil_r. repeat split; lia.
Qed.

Lemma run_loop_cons (args : Namespace) (line : string) (rest : list string)
    (st : loop_state) :
  run_loop args (line :: rest) st =
  match (loop_body args line st).2 with
  | Next => run_loop args rest (loop_body args line st).1
  | Break => ((loop_body args line st).1, LimitReached)
  | Abort e => ((loop_body args line st).1, Crashed e)
  end.
Proof.
  cbn [run_loop]. destruct (loop_body args line st) as [st' [| |e]]; reflexivity.
Qed.

(** A run prints no more lines on standard output than it counts. *)
Lemma run_loop_output_counted (args : Namespace) (lines : list string) (st : loop_state) :
  Z.of_nat (length (stdout (run_loop args lines st).1)) - Z.of_nat (length (stdout st))
  <= count (run_loop args lines st).1 - count st.
Proof.
  revert st. induction lines as [|line rest IH]; intros st; [cbn; lia|].
  rewrite run_loop_cons.
  destruct (loop_body_adds args line st) as [o1 [e1 [Ho [He [H0 [H1 H2]]]]]].
  assert (Hlen : Z.of_nat (length (stdout (loop_body args line st).1))
                 = Z.of_nat (length (stdout st)) + Z.of_nat (length o1))
    by (rewrite Ho, length_app; lia).
  destruct ((loop_body args line st).2) as [| |e]; cbn [fst]; try lia.
  specialize (IH (loop_body args line st).1). lia.
Qed.

(** X16. The loop only ever adds to its output.  Whatever the lines and
    however the run ends, what was on standard output and standard error
    stays there with new lines after it, the counter does not go down, at
    most one output line is written per counted line, and counted lines
    and error lines together are no more than the lines read. *)
Theorem run_loop_appends (args : Namespace) (lines : list string) (st : loop_state) :
  exists out err,
    stdout (run_loop args lines st).1 = stdout st ++ out
    /\ stderr (run_loop args lines st).1 = stderr st ++ err
    /\ 0 <= count (run_loop args lines st).1 - count st
    /\ Z.of_nat (length out) <= count (run_loop args lines st).1 - count st
    /\ count (run_loop args lines st).1 - count st + Z.of_nat (length err)
       <= Z.of_nat (length lines).
Proof.
  revert st. induction lines as [|line rest IH]; intros st.
  - exists [], []. cbn. rewrite !app_nil_r. repeat split; lia.
  - rewrite run_loop_cons.
    destruct (loop_body_adds args line st) as [o1 [e1 [Ho [He [H0 [H1 H2]]]]]].
    destruct ((loop_body args line st).2) as [| |e].
    + destruct (IH (loop_body args line st).1) as [o2 [e2 [Ho2 [He2 [H3 [H4 H5]]]]]].
      exists (o1 ++ o2), (e1 ++ e2). rewrite Ho2, He2, Ho, He, !app_assoc, !length_app.
      cbn [length] in *. repeat split; lia.
    + exists o1, e1. cbn [fst length]. repeat split; try assumption; lia.
    + exists o1, e1. cbn [fst length]. repeat split; try assumption; lia.
Qed.

(** X17. Once the loop has stopped, at the limit or with an exception, it
    reads nothing more; while it has not, it goes on from the state it has
    reached: a run over two batches of lines is the run over the first,
    followed, if that came to the end of its lines, by the run over the
    second. *)
Theorem run_loop_app (args : Namespace) (lines more : list string) (st : loop_state) :
  run_loop args (lines ++ more) st =
  match run_loop args lines st with
  | (st', StreamEnd) => run_loop args more st'
  | stopped => stopped
  end.
Proof.
  revert st. induction lines as [|line rest IH]; intros st; [reflexivity|].
  cbn [app run_loop].
  destruct (loop_body args line st) as [st' [| |e]]; [apply IH | reflexivity | reflexivity].
Qed.

End LoopMore.

Section LoopRuns.
Context `{RT : Runtime}.

Lemma raw_run (args : Namespace) (lines : list string) :
  raw args = true ->
  forall st,
    0 <= count st ->
    (max_messages args = 0 \/ count st < Z.max 1 (max_messages args)) ->
    let n := if max_messages args =? 0 then length lines
             else Nat.min (length lines)
                    (Z.to_nat (Z.max 1 (max_messages args) - count st)) in
    run_loop args lines st
    = ({| stdout := stdout st ++ take n lines;
          stderr := stderr st;
          count := count st + Z.of_nat n |},
       if negb (max_messages args =? 0)
          && (Z.max 1 (max_messages args) - count st <=? Z.of_nat (length lines))
       then LimitReached else StreamEnd).
Proof.
  intros Hraw. induction lines as [|line rest IH]; intros st Hc Hlim n; subst n.
  - cbn [run_loop length take].
    replace (if max_messages args =? 0 then 0%nat
             else Nat.min 0 (Z.to_nat (Z.max 1 (max_messages args) - count st)))
      with 0%nat by (destruct (max_messages args =? 0); reflexivity).
    rewrite app_nil_r, Z.add_0_r.
    replace (negb (max_messages args =? 0)
             && (Z.max 1 (max_messages args) - count st <=? Z.of_nat 0)) with false.
    + destruct st; reflexivity.
    + symmetry. apply andb_false_iff.
      destruct (Z.eqb_spec (max_messages args) 0) as [E|E]; [left; reflexivity|].
      right. apply Z.leb_gt. cbn. lia.
  - cbn [run_loop]. rewrite (loop_body_raw _ _ _ Hraw). unfold count_and_check.
    cbn [count print stdout stderr].
    destruct (Z.eqb_spec (max_messages args) 0) as [E|E]; cbn [negb andb].
    + specialize (IH {| stdout := stdout st ++ [line]; stderr := stderr st;
                        count := count st + 1 |}).
      cbn [count stdout stderr] in IH. rewrite IH by (try lia; left; exact E).
      destruct (Z.eqb_spec (max_messages args) 0); [|contradiction].
      cbn [negb andb length take]. rewrite <- app_assoc. cbn [app].
      f_equal. f_equal. lia.
    + destruct Hlim as [Hlim|Hlim]; [contradiction|].
      destruct (Z.geb_spec (count st + 1) (max_messages args)) as [Hge|Hlt].
      * assert (Hone : Z.max 1 (max_messages args) - count st = 1) by lia.
        rewrite Hone. cbn [length].
        replace (Nat.min (S (length rest)) (Z.to_nat 1)) with 1%nat by lia.
        replace (1 <=? Z.of_nat (S (length rest))) with true
          by (symmetry; apply Z.leb_le; lia).
        cbn [take]. reflexivity.
      * specialize (IH {| stdout := stdout st ++ [line]; stderr := stderr st;
                          count := count st + 1 |}).
        cbn [count stdout stderr] in IH. rewrite IH by (try lia; right; lia).
        destruct (Z.eqb_spec (max_messages args) 0); [contradiction|].
        cbn [negb andb length].
        replace (Nat.min (S (length rest))
                   (Z.to_nat (Z.max 1 (max_messages args) - count st)))
          with (S (Nat.min (length rest)
                     (Z.to_nat (Z.max 1 (max_messages args) - (count st + 1)))))
          by lia.
        cbn [take]. rewrite <- app_assoc. cbn [app].
        replace (Z.max 1 (max_messages args) - (count st + 1) <=? Z.of_nat (length rest))
          with (Z.max 1 (max_messages args) - count st <=? Z.of_nat (S (length rest))).
        -- f_equal. f_equal. lia.
        -- apply eq_true_iff_eq. rewrite !Z.leb_le. lia.
Qed.

(** X18. In raw mode the lines are printed as they come, nothing is
    parsed and nothing goes to standard error.  Without a limit all lines
    are printed; with a limit [n] above 0 the first [n]; a negative
    limit stops the run after the first line. *)
Theorem raw_mode_prints_lines (args : Namespace) (lines : list string) :
  raw args = true ->
  let n := if max_messages args =? 0 then length lines
           else Nat.min (length lines) (Z.to_nat (Z.max 1 (max_messages args))) in
  (main args lines).1 = {| stdout := take n lines; stderr := []; count := Z.of_nat n |}
  /\ (main args lines).2 = Ok 0.
Proof.
  intros Hraw n. subst n. unfold main.
  rewrite (raw_run args lines Hraw initial_state) by (cbn; lia).
  cbn [count stdout stderr initial_state app]. rewrite Z.sub_0_r, Z.add_0_l.
  destruct (negb (max_messages args =? 0) && _); split; reflexivity.
Qed.

Lemma count_and_check_break (args : Namespace) (st : loop_state) :
  (count_and_check args st).2
  = if negb (max_messages args =? 0) && (count st + 1 >=? max_messages args)
    then Break else Next.
Proof. reflexivity. Qed.

(** While the counter is below a positive limit it never passes it. *)
Lemma run_loop_bounded (args : Namespace) (lines : list string) :
  0 < max_messages args ->
  forall st, count st < max_messages args ->
             count (run_loop args lines st).1 <= max_messages args.
Proof.
  intros Hmax. induction lines as [|line rest IH]; intros st Hlt; [cbn; lia|].
  rewrite run_loop_cons.
  destruct (loop_body_shapes args line st)
    as [[_ [_ Hb]] | [[_ [text Hb]] | [[_ [_ Hb]] | [_ [_ [e Hb]]]]]]; rewrite Hb.
  - cbn [snd fst]. apply IH. exact Hlt.
  - rewrite count_and_check_break, count_and_check_fst. cbn [count print].
    destruct (Z.eqb_spec (max_messages args) 0); [lia|]. cbn [negb andb].
    destruct (Z.geb_spec (count st + 1) (max_messages args)); [cbn; lia|].
    apply IH. cbn. lia.
  - rewrite count_and_check_break, count_and_check_fst. cbn [count].
    destruct (Z.eqb_spec (max_messages args) 0); [lia|]. cbn [negb andb].
    destruct (Z.geb_spec (count st + 1) (max_messages args)); [cbn; lia|].
    apply IH. cbn. lia.
  - cbn. lia.
Qed.

(** A negative limit lets one line through the counter. *)
Lemma run_loop_negative (args : Namespace) (lines : list string) :
  max_messages args < 0 ->
  forall st, 0 <= count st -> count (run_loop args lines st).1 <= count st + 1.
Proof.
  intros Hmax. induction lines as [|line rest IH]; intros st Hc; [cbn; lia|].
  rewrite run_loop_cons.
  destruct (loop_body_shapes args line st)
    as [[_ [_ Hb]] | [[_ [text Hb]] | [[_ [_ Hb]] | [_ [_ [e Hb]]]]]]; rewrite Hb.
  - cbn [snd fst]. apply (IH (print_err line st)). exact Hc.
  - rewrite count_and_check_break, count_and_check_fst. cbn [count print].
    destruct (Z.eqb_spec (max_messages args) 0); [lia|]. cbn [negb andb].
    destruct (Z.geb_spec (count st + 1) (max_messages args)); [cbn; lia | lia].
  - rewrite count_and_check_break, count_and_check_fst. cbn [count].
    destruct (Z.eqb_spec (max_messages args) 0); [lia|]. cbn [negb andb].
    destruct (Z.geb_spec (count st + 1) (max_messages args)); [cbn; lia | lia].
  - cbn. lia.
Qed.

(** X19. A limit above 0 bounds the output: a run with
    [--max-messages n] counts at most [n] lines and prints at most [n]
    lines on standard output, whatever the stream holds. *)
Theorem limit_bounds_output (args : Namespace) (lines : list string) :
  0 < max_messages args ->
  count (main args lines).1 <= max_messages args
  /\ Z.of_nat (length (stdout (main args lines).1)) <= max_messages args.
Proof.
  intros Hmax.
  assert (Hmain : (main args lines).1 = (run_loop args lines initial_state).1)
    by (unfold main; destruct (run_loop args lines initial_state) as [st [| |e]];
        reflexivity).
  rewrite Hmain.
  pose proof (run_loop_bounded args lines Hmax initial_state Hmax) as Hb.
  pose proof (run_loop_output_counted args lines initial_state) as Hl.
  cbn [count stdout initial_state length] in Hl. split; [exact Hb | lia].
Qed.

(** X20. A negative limit is not "no limit": the run stops after the
    first line that reaches the counter, so it prints at most one line on
    standard output. *)
Theorem negative_limit_stops_early (args : Namespace) (lines : list string) :
  max_messages args < 0 ->
  count (main args lines).1 <= 1
  /\ (length (stdout (main args lines).1) <= 1)%nat.
Proof.
  intros Hmax.
  assert (Hmain : (main args lines).1 = (run_loop args lines initial_state).1)
    by (unfold main; destruct (run_loop args lines initial_state) as [st [| |e]];
        reflexivity).
  rewrite Hmain.
  pose proof (run_loop_negative args lines Hmax initial_state (Z.le_refl 0)) as Hb.
  pose proof (run_loop_output_counted args lines initial_state) as Hl.
  cbn [count stdout initial_state length] in Hb, Hl. split; lia.
Qed.

End LoopRuns.

Section LoopLines.
Context `{RT : Runtime}.

Lemma format_envelope_single (v : pyval) (args : Namespace) :
  is_dict v = false -> format_envelope 0%nat args [v] = ([v], Raise AttributeError).
Proof. intros H. exact (format_envelope_value [v] 0%nat v args eq_refl H). Qed.

(** X21. Outside raw mode, a line is printed on standard output only for
    an envelope the topic filter has accepted, and what is printed is the
    JSON text of the emitted envelope: nothing else ever reaches standard
    output. *)
Theorem printed_only_if_accepted (args : Namespace) (line : string) (st : loop_state) :
  raw args = false ->
  stdout (loop_body args line st).1 <> stdout st ->
  exists p d out,
    json_loads line = Some (VDict p)
    /\ default (VDict p) (dict_get p "result") = VDict d
    /\ accepted d args
    /\ emits 0%nat args [VDict d] out
    /\ stdout (loop_body args line st).1
       = stdout st ++ [json_dumps (VDict out) (indent_of args)].
Proof.
  intros Hraw. unfold loop_body. rewrite Hraw.
  destruct (json_loads line) as [payload|]; [|intros H; contradiction].
  destruct payload as [| | | | | |p]; try (intros H; contradiction).
  destruct (default (VDict p) (dict_get p "result")) as [| | | | | |d] eqn:Henv;
    try (rewrite format_envelope_single by reflexivity; intros H; contradiction).
  cbv zeta. rewrite (format_envelope_dict [VDict d] 0%nat d args eq_refl).
  destruct (should_emit (topic_of d) (topic_contains args) (topic_prefix args))
    as [[|]|e] eqn:Hacc; try (intros H; contradiction).
  intros _. exists p, d, (transformed args d).
  split; [reflexivity|]. split; [exact Henv|]. split; [exact Hacc|].
  split; [apply accepted_emits; [reflexivity | exact Hacc] | reflexivity].
Qed.

(** X22. At the end of a stream read outside raw mode, standard error
    holds the lines that did not parse, in order, and the counter is the
    number of lines that did. *)
Theorem stream_end_accounting
    (args : Namespace) (lines : list string) (st st' : loop_state) :
  raw args = false ->
  run_loop args lines st = (st', StreamEnd) ->
  stderr st' = stderr st ++ List.filter (fun l => negb (parses l)) lines
  /\ count st' = count st + Z.of_nat (length (List.filter parses lines)).
Proof.
  intros Hraw. revert st. induction lines as [|line rest IH]; intros st Hrun.
  - injection Hrun as <-. cbn. rewrite app_nil_r. split; [reflexivity | lia].
  - rewrite run_loop_cons in Hrun. cbn [List.filter].
    destruct (loop_body_shapes args line st)
      as [[_ [Hp Hb]] | [[[Hr|Hp] [text Hb]] | [[_ [Hp Hb]] | [_ [Hp [e Hb]]]]]];
      try congruence; rewrite Hb in Hrun; rewrite Hp; cbn [negb].
    + cbn [fst snd] in Hrun. destruct (IH _ Hrun) as [He Hc].
      rewrite He, Hc. cbn [print_err stderr count]. rewrite <- app_assoc.
      split; reflexivity.
    + rewrite count_and_check_break, count_and_check_fst in Hrun.
      destruct (negb (max_messages args =? 0) && _); [discriminate|].
      destruct (IH _ Hrun) as [He Hc]. rewrite He, Hc. cbn [stderr count print length].
      split; [reflexivity | lia].
    + rewrite count_and_check_break, count_and_check_fst in Hrun.
      destruct (negb (max_messages args =? 0) && _); [discriminate|].
      destruct (IH _ Hrun) as [He Hc]. rewrite He, Hc. cbn [stderr count length].
      split; [reflexivity | lia].
    + cbn [fst snd] in Hrun. discriminate.
Qed.

(** X23. A line that parses but holds no JSON object, or an object whose
    [result] is not an object ([null] too), ends the run with
    [AttributeError]: nothing is printed for it, it is not counted, and
    the lines after it are not read. *)
Theorem not_an_object_ends_run
    (args : Namespace) (line : string) (rest : list string) (st : loop_state)
    (payload : pyval) :
  raw args = false ->
  json_loads line = Some payload ->
  is_dict payload = false
  \/ (exists p v, payload = VDict p /\ dict_get p "result" = Some v /\ is_dict v = false) ->
  run_loop args (line :: rest) st = (st, Crashed AttributeError)
  /\ main args (line :: rest) = (initial_state, Raise AttributeError).
Proof.
  intros Hraw Hline Hshape.
  assert (Hbody : forall s, loop_body args line s = (s, Abort AttributeError)).
  { intros s. unfold loop_body. rewrite Hraw, Hline.
    destruct Hshape as [Hnd | [p [v [-> [Hres Hnd]]]]].
    - destruct payload; try discriminate; reflexivity.
    - rewrite Hres. cbn [from_option id].
      rewrite (format_envelope_single v args Hnd). reflexivity. }
  unfold main. cbn [run_loop]. rewrite !Hbody. split; reflexivity.
Qed.

(** X24. An envelope whose topic is a non-zero number or [true] ends the
    run with [TypeError] as soon as a contains-filter is set: the filter
    looks for the text inside the topic. *)
Theorem number_topic_ends_run
    (args : Namespace) (line : string) (rest : list string) (st : loop_state)
    (p d : dict) (v : pyval) :
  raw args = false ->
  json_loads line = Some (VDict p) ->
  default (VDict p) (dict_get p "result") = VDict d ->
  dict_get d "contentTopic" = Some v ->
  is_number v = true ->
  truthy v = true ->
  topic_contains args <> "" ->
  run_loop args (line :: rest) st = (st, Crashed TypeError).
Proof.
  intros Hraw Hline Henv Htopic Hnum Htruthy Hc.
  cbn [run_loop]. unfold loop_body. rewrite Hraw, Hline, Henv. cbv zeta.
  rewrite (format_envelope_dict [VDict d] 0%nat d args eq_refl).
  unfold topic_of. rewrite Htopic. cbn [from_option id].
  unfold should_emit. rewrite Htruthy. cbn [negb].
  apply str_truthy_true in Hc. rewrite Hc.
  destruct v; try discriminate; reflexivity.
Qed.

(** X25. Outside raw mode, a reply that wraps the envelope under [result]
    is handled exactly like a line that holds the envelope itself, as long
    as the envelope has no field named [result] of its own. *)
Theorem result_unwrapped
    (args : Namespace) (wrapped bare : string) (st : loop_state) (p d : dict) :
  raw args = false ->
  json_loads wrapped = Some (VDict p) ->
  dict_get p "result" = Some (VDict d) ->
  json_loads bare = Some (VDict d) ->
  dict_get d "result" = None ->
  loop_body args wrapped st = loop_body args bare st.
Proof.
  intros Hraw Hw Hres Hb Hnone. unfold loop_body.
  rewrite Hraw, Hw, Hb, Hres, Hnone. reflexivity.
Qed.

End LoopLines.

(** * The rest of the script on the sample stream *)

Lemma subscribe_url_shape_sample :
  exists base,
    "https://production.xmtp.network/message/v1/subscribe-all" = base +:+ subscribe_path
    /\ last_char base <> Some "/"%char.
Proof. apply (subscribe_url_shape default_args). reflexivity. Defined.

Lemma subscribe_url_of_env_sample :
  subscribe_url default_args
  = Some ("https://production.xmtp.network" +:+ subscribe_path).
Proof.
  apply (proj1 (subscribe_url_of_env default_args eq_refl)). reflexivity.
Defined.

Lemma subscribe_url_trailing_slash_sample :
  subscribe_url (set_base_url ("http://localhost:5555" +:+ "/") default_args)
  = subscribe_url (set_base_url "http://localhost:5555" default_args)
  /\ subscribe_url (set_base_url "http://localhost:5555" default_args)
     = Some (rstrip_slash "http://localhost:5555" +:+ subscribe_path).
Proof.
  apply (subscribe_url_trailing_slash default_args "http://localhost:5555");
    [discriminate | reflexivity].
Defined.

Lemma should_emit_falsy_sample :
  should_emit (VInt 0) "a" "" = should_emit VNone "a" ""
  /\ (should_emit (VInt 0) "a" "" = Ok true <-> "a" = "" /\ "" = "").
Proof. apply (should_emit_falsy (VInt 0) "a" ""). reflexivity. Defined.

Lemma should_emit_raises_sample : should_emit (VInt 7) "a" "" = Raise TypeError.
Proof.
  apply (proj1 (should_emit_raises (VInt 7) "a" "" eq_refl)); [reflexivity | discriminate].
Defined.

Lemma non_text_message_only_omitted_sample :
  emits (RT:=reference) 0%nat (flags "" "" 0 true 5 true 256) [VDict odd_message_envelope]
    (if omit_message (flags "" "" 0 true 5 true 256)
     then dict_pop odd_message_envelope "message" else odd_message_envelope)
  /\ (dict_get odd_message_envelope "message" = None ->
      emits (RT:=reference) 0%nat (flags "" "" 0 true 5 true 256)
        [VDict odd_message_envelope] odd_message_envelope).
Proof.
  apply (non_text_message_only_omitted (RT:=reference) [VDict odd_message_envelope] 0%nat
           odd_message_envelope (flags "" "" 0 true 5 true 256));
    [reflexivity | vm_compute; reflexivity | intros m H; vm_compute in H; discriminate].
Defined.

Lemma omit_message_removes_sample :
  exists out,
    emits (RT:=reference) 0%nat (flags "" "" 0 true 0 false 256)
      [VDict odd_message_envelope] out
    /\ dict_get out "message" = None.
Proof.
  apply (omit_message_removes (RT:=reference) [VDict odd_message_envelope] 0%nat
           odd_message_envelope (flags "" "" 0 true 0 false 256));
    [reflexivity | reflexivity | vm_compute; reflexivity].
Defined.

Lemma nonpositive_message_max_sample :
  exists out,
    emits (RT:=reference) 0%nat (flags "" "" 0 false (-3) false 256)
      [VDict ten_envelope] out
    /\ dict_get out "message" = dict_get ten_envelope "message".
Proof.
  apply (nonpositive_message_max (RT:=reference) [VDict ten_envelope] 0%nat
           ten_envelope (flags "" "" 0 false (-3) false 256));
    [reflexivity | simpl; lia | reflexivity | vm_compute; reflexivity].
Defined.

Lemma derived_fields_appended_sample :
  exists text,
    emits (RT:=reference) 0%nat (flags "" "" 0 false 0 true 256) [VDict sample_envelope]
      (sample_envelope
         ++ [("messageBytesLen", VInt 5); ("messageBytesHex", VStr text)]).
Proof.
  apply (derived_fields_appended (RT:=reference) [VDict sample_envelope] 0%nat
           sample_envelope (flags "" "" 0 false 0 true 256) "aGVsbG8="
           ["h"; "e"; "l"; "l"; "o"]%byte);
    [reflexivity | vm_compute; reflexivity | reflexivity | reflexivity
    | vm_compute; reflexivity | reflexivity | reflexivity | reflexivity
    | right; simpl; lia].
Defined.

Lemma emitted_keys_sample :
  (dict_get
     [("contentTopic", VStr "/xmtp/0/foo"); ("timestampNs", VInt 42);
      ("messageBytesLen", VInt 5); ("messageBytesHex", VStr "68656c6c6f")]
     "timestampNs" <> None ->
   dict_get stamped_envelope "timestampNs" <> None
   \/ "timestampNs" = "messageBytesLen" \/ "timestampNs" = "messageBytesHex")
  /\ (dict_get stamped_envelope "timestampNs" <> None ->
      "timestampNs" <> "message" ->
      dict_get
        [("contentTopic", VStr "/xmtp/0/foo"); ("timestampNs", VInt 42);
         ("messageBytesLen", VInt 5); ("messageBytesHex", VStr "68656c6c6f")]
        "timestampNs" <> None).
Proof.
  apply (emitted_keys (RT:=reference) [VDict stamped_envelope] 0%nat stamped_envelope
           (flags "" "" 0 true 5 true 256));
    [reflexivity | vm_compute; reflexivity].
Defined.

Lemma aligned_message_not_padded_sample :
  decode_message_bytes (RT:=reference) "aGk=" = b64decode (Runtime:=reference) "aGk=".
Proof. apply (aligned_message_not_padded (RT:=reference) "aGk="). reflexivity. Defined.

Lemma raw_mode_prints_lines_sample :
  (main (RT:=reference) (raw_flags 2) ["not json"; sample_line; bare_line]).1
  = {| stdout := ["not json"; sample_line]; stderr := []; count := 2 |}
  /\ (main (RT:=reference) (raw_flags 2) ["not json"; sample_line; bare_line]).2 = Ok 0.
Proof.
  apply (raw_mode_prints_lines (RT:=reference) (raw_flags 2)
           ["not json"; sample_line; bare_line]).
  reflexivity.
Defined.

Lemma limit_bounds_output_sample :
  count (main (RT:=reference) (flags "" "" 2 false 0 false 256)
           [sample_line; bare_line; sample_line]).1 <= 2
  /\ Z.of_nat (length (stdout (main (RT:=reference) (flags "" "" 2 false 0 false 256)
                                 [sample_line; bare_line; sample_line]).1)) <= 2.
Proof.
  apply (limit_bounds_output (RT:=reference) (flags "" "" 2 false 0 false 256)
           [sample_line; bare_line; sample_line]).
  simpl. lia.
Defined.

Lemma negative_limit_stops_early_sample :
  count (main (RT:=reference) (flags "" "" (-1) false 0 false 256)
           [sample_line; bare_line; sample_line]).1 <= 1
  /\ (length (stdout (main (RT:=reference) (flags "" "" (-1) false 0 false 256)
                        [sample_line; bare_line; sample_line]).1) <= 1)%nat.
Proof.
  apply (negative_limit_stops_early (RT:=reference) (flags "" "" (-1) false 0 false 256)
           [sample_line; bare_line; sample_line]).
  simpl. lia.
Defined.

Lemma printed_only_if_accepted_sample :
  exists p d out,
    json_loads (Runtime:=reference) sample_line = Some (VDict p)
    /\ default (VDict p) (dict_get p "result") = VDict d
    /\ accepted d default_args
    /\ emits (RT:=reference) 0%nat default_args [VDict d] out
    /\ stdout (loop_body (RT:=reference) default_args sample_line initial_state).1
       = stdout initial_state
           ++ [json_dumps (Runtime:=reference) (VDict out) (indent_of default_args)].
Proof.
  apply (printed_only_if_accepted (RT:=reference) default_args sample_line initial_state);
    [reflexivity | vm_compute; discriminate].
Defined.

Lemma stream_end_accounting_sample :
  stderr {| stdout := [bare_line; bare_line]; stderr := ["not json"]; count := 2 |}
  = stderr initial_state
      ++ List.filter (fun l => negb (parses (RT:=reference) l))
           [sample_line; "not json"; bare_line]
  /\ count {| stdout := [bare_line; bare_line]; stderr := ["not json"]; count := 2 |}
     = count initial_state
       + Z.of_nat (length (List.filter (parses (RT:=reference))
                             [sample_line; "not json"; bare_line])).
Proof.
  apply (stream_end_accounting (RT:=reference) default_args
           [sample_line; "not json"; bare_line] initial_state);
    [reflexivity | vm_compute; reflexivity].
Defined.

Lemma not_an_object_ends_run_sample :
  run_loop (RT:=reference_more) default_args [null_result_line; sample_line] initial_state
  = (initial_state, Crashed AttributeError)
  /\ main (RT:=reference_more) default_args [null_result_line; sample_line]
     = (initial_state, Raise AttributeError).
Proof.
  apply (not_an_object_ends_run (RT:=reference_more) default_args null_result_line
           [sample_line] initial_state (VDict [("result", VNone)]));
    [reflexivity | vm_compute; reflexivity
    | right; exists [("result", VNone)], VNone; repeat split].
Defined.

Lemma number_topic_ends_run_sample :
  run_loop (RT:=reference_more) (flags "xmtp" "" 0 false 0 false 256)
    [numbered_line; sample_line] initial_state
  = (initial_state, Crashed TypeError).
Proof.
  apply (number_topic_ends_run (RT:=reference_more) (flags "xmtp" "" 0 false 0 false 256)
           numbered_line [sample_line] initial_state numbered_envelope numbered_envelope
           (VInt 7));
    [reflexivity | vm_compute; reflexivity | reflexivity | reflexivity | reflexivity
    | reflexivity | discriminate].
Defined.

Lemma result_unwrapped_sample :
  loop_body (RT:=reference) default_args sample_line initial_state
  = loop_body (RT:=reference) default_args bare_line initial_state.
Proof.
  apply (result_unwrapped (RT:=reference) default_args sample_line bare_line initial_state
           [("result", VDict sample_envelope)] sample_envelope);
    [reflexivity | vm_compute; reflexivity | reflexivity | vm_compute; reflexivity
    | reflexivity].
Defined.
